(** * firmware/ethereum.c: the streaming RLP-encode / Keccak / sign session

    A shallow embedding of the Ethereum transaction signing core of the
    firmware ([firmware/ethereum.c]) and the properties of its encoder and of
    its session state machine.

    Conventions.
    - [uint8_t] and [uint32_t] values are integers of [Z]; every place where
      the C code narrows or wraps a value is written out with [u8] or [u32].
    - The file-scope variables ([signing], [data_total], [data_left], [resp],
      [hash], [sig], [privkey], [keccak_ctx]) form the record [state]; a C
      function of type [void f(...)] becomes a command [cmd]: a function from
      the state before the call to the state after it and the list of calls
      made to the collaborators outside this file (transport, failure
      reporting, layout), in order.
    - The Keccak context is represented by the bytes absorbed since
      [sha3_256_Init]; the digest primitive and the signature primitive are
      parameters of the development. *)

From Stdlib Require Import String ZArith List Bool Lia.
Import ListNotations.
Open Scope string_scope.
Open Scope list_scope.
Open Scope Z_scope.

(** ** Machine integers and fixed-size arrays *)

Definition u8 (x : Z) : Z := x mod 256.
Definition u32 (x : Z) : Z := x mod 2 ^ 32.

(** Conversion of a [uint32_t] to [int] (two's complement, 32 bits). *)
Definition to_int (x : Z) : Z := if x <? 2 ^ 31 then x else x - 2 ^ 32.

(** A C array of [n] cells that receives the bytes [l]: it always has [n]
    cells (a shorter source leaves zero cells, a longer one is cut). *)
Definition array_of (n : nat) (l : list Z) : list Z :=
  firstn n l ++ repeat 0 (n - length l).

(** ** Messages (nanopb structures) *)

(** A nanopb bytes field: the [size] in use and the backing array [bytes]. *)
Record bytes_t := mk_bytes { size : Z; bytes : list Z }.

Record EthereumSignTx := mk_EthereumSignTx {
  has_nonce : bool;              nonce : bytes_t;
  has_gas_price : bool;          gas_price : bytes_t;
  has_gas_limit : bool;          gas_limit : bytes_t;
  has_to : bool;                 to : bytes_t;
  has_value : bool;              value : bytes_t;
  has_data_initial_chunk : bool; data_initial_chunk : bytes_t;
  has_data_length : bool;        data_length : Z
}.

Record EthereumTxAck := mk_EthereumTxAck {
  has_data_chunk : bool; data_chunk : bytes_t
}.

Record EthereumTxRequest := mk_EthereumTxRequest {
  req_has_data_length : bool; req_data_length : Z;
  has_signature_v : bool;     signature_v : Z;
  has_signature_r : bool;     signature_r : bytes_t;
  has_signature_s : bool;     signature_s : bytes_t
}.

Record HDNode := mk_HDNode { private_key : list Z }.

(** [memset(&resp, 0, sizeof(EthereumTxRequest))]. *)
Definition zero_EthereumTxRequest : EthereumTxRequest :=
  mk_EthereumTxRequest false 0 false 0
    false (mk_bytes 0 (repeat 0 32%nat)) false (mk_bytes 0 (repeat 0 32%nat)).

(** ** Calls to the collaborators *)

Inductive FailureType :=
| FailureType_Failure_UnexpectedMessage
| FailureType_Failure_ActionCancelled
| FailureType_Failure_Other.

Inductive event :=
| fsm_sendFailure (code : FailureType) (text : string)
| msg_write (r : EthereumTxRequest)
| layoutHome
| layoutProgress (desc : string) (permil : Z)
| layoutEthereumConfirmTx (to_ value_ : option (list Z)) (value_len : Z)
| protectButton (answer : bool).

(** ** The file-scope state *)

Record state := mk_state {
  signing : bool;
  data_total : Z;
  data_left : Z;
  resp : EthereumTxRequest;
  hash : list Z;
  sig : list Z;
  privkey : list Z;
  keccak_ctx : list Z
}.

Definition set_signing (b : bool) (s : state) : state :=
  mk_state b (data_total s) (data_left s) (resp s) (hash s) (sig s)
    (privkey s) (keccak_ctx s).
Definition set_data_total (n : Z) (s : state) : state :=
  mk_state (signing s) n (data_left s) (resp s) (hash s) (sig s)
    (privkey s) (keccak_ctx s).
Definition set_data_left (n : Z) (s : state) : state :=
  mk_state (signing s) (data_total s) n (resp s) (hash s) (sig s)
    (privkey s) (keccak_ctx s).
Definition set_resp (r : EthereumTxRequest) (s : state) : state :=
  mk_state (signing s) (data_total s) (data_left s) r (hash s) (sig s)
    (privkey s) (keccak_ctx s).
Definition set_hash (h : list Z) (s : state) : state :=
  mk_state (signing s) (data_total s) (data_left s) (resp s) h (sig s)
    (privkey s) (keccak_ctx s).
Definition set_sig (g : list Z) (s : state) : state :=
  mk_state (signing s) (data_total s) (data_left s) (resp s) (hash s) g
    (privkey s) (keccak_ctx s).
Definition set_privkey (k : list Z) (s : state) : state :=
  mk_state (signing s) (data_total s) (data_left s) (resp s) (hash s) (sig s)
    k (keccak_ctx s).
Definition set_keccak_ctx (c : list Z) (s : state) : state :=
  mk_state (signing s) (data_total s) (data_left s) (resp s) (hash s) (sig s)
    (privkey s) c.

(** The state at boot: [signing] is initialised to [false], the other
    objects have static storage and start zeroed. *)
Definition boot_state : state :=
  mk_state false 0 0 zero_EthereumTxRequest
    (repeat 0 32%nat) (repeat 0 64%nat) (repeat 0 32%nat) [].

(** ** Commands *)

Definition cmd : Type := state -> state * list event.

Definition skip : cmd := fun s => (s, []).
Definition seq (c1 c2 : cmd) : cmd :=
  fun s => let (s1, t1) := c1 s in let (s2, t2) := c2 s1 in (s2, t1 ++ t2).
Definition modify (f : state -> state) : cmd := fun s => (f s, []).
Definition call (e : event) : cmd := fun s => (s, [e]).
Definition reading {A : Type} (f : state -> A) (k : A -> cmd) : cmd :=
  fun s => k (f s) s.

Declare Scope cmd_scope.
Delimit Scope cmd_scope with cmd.
Bind Scope cmd_scope with cmd.
Notation "c1 ;; c2" := (seq c1 c2)
  (at level 61, right associativity) : cmd_scope.

Definition exec (c : cmd) (s : state) : state := fst (c s).
Definition trace (c : cmd) (s : state) : list event := snd (c s).

(** The requests written to the transport by a list of calls. *)
Fixpoint sent (t : list event) : list EthereumTxRequest :=
  match t with
  | [] => []
  | msg_write r :: t' => r :: sent t'
  | _ :: t' => sent t'
  end.

(** The failures reported by a list of calls. *)
Fixpoint failures (t : list event) : list (FailureType * string) :=
  match t with
  | [] => []
  | fsm_sendFailure c m :: t' => (c, m) :: failures t'
  | _ :: t' => failures t'
  end.

(** ** The RLP encoder *)

(** [hash_data(buf, size)]: [sha3_Update] absorbs the first [size] bytes. *)
Definition hash_data (buf : list Z) (size_ : Z) : cmd :=
  modify (fun s => set_keccak_ctx (keccak_ctx s ++ firstn (Z.to_nat size_) buf) s).

Definition hash_rlp_length (length_ firstbyte : Z) : cmd :=
  if (length_ =? 1) && (firstbyte =? 0x00) then
    hash_data [0x80] 1
  else if (length_ =? 1) && (firstbyte <=? 0x7f) then
    hash_data [firstbyte] 1
  else if length_ <=? 55 then
    hash_data [u8 (0x80 + length_)] 1
  else if length_ <=? 0xff then
    hash_data [0xb7 + 1; u8 length_] 2
  else if length_ <=? 0xffff then
    hash_data [0xb7 + 2; u8 (Z.shiftr length_ 8); Z.land length_ 0xff] 3
  else
    hash_data [0xb7 + 3; u8 (Z.shiftr length_ 16); u8 (Z.shiftr length_ 8);
               Z.land length_ 0xff] 4.

Definition hash_rlp_list_length (length_ : Z) : cmd :=
  if length_ <=? 55 then
    hash_data [u8 (0xc0 + length_)] 1
  else if length_ <=? 0xff then
    hash_data [0xf7 + 1; u8 length_] 2
  else if length_ <=? 0xffff then
    hash_data [0xf7 + 2; u8 (Z.shiftr length_ 8); Z.land length_ 0xff] 3
  else
    hash_data [0xf7 + 3; u8 (Z.shiftr length_ 16); u8 (Z.shiftr length_ 8);
               Z.land length_ 0xff] 4.

(** [buf[0]]: the first cell of the array behind the pointer. *)
Definition first_byte (buf : list Z) : Z := nth 0 buf 0.

Definition hash_rlp_field (buf : list Z) (size_ : Z) : cmd :=
  (hash_rlp_length size_ (first_byte buf) ;;
   if (size_ >? 1) || (first_byte buf >=? 0x80) then hash_data buf size_
   else skip)%cmd.

(** [rlp_calculate_length] works on [int]; the sums below stay far from the
    bounds of [int] for every length the encoder supports. *)
Definition rlp_calculate_length (length_ firstbyte : Z) : Z :=
  if (length_ =? 1) && (firstbyte <=? 0x7f) then 1
  else if length_ <=? 55 then 1 + length_
  else if length_ <=? 0xff then 2 + length_
  else if length_ <=? 0xffff then 3 + length_
  else 4 + length_.

(** ** The signing session *)

Definition set_req_has_data_length (b : bool) (r : EthereumTxRequest) :=
  mk_EthereumTxRequest b (req_data_length r) (has_signature_v r)
    (signature_v r) (has_signature_r r) (signature_r r) (has_signature_s r)
    (signature_s r).
Definition set_req_data_length (n : Z) (r : EthereumTxRequest) :=
  mk_EthereumTxRequest (req_has_data_length r) n (has_signature_v r)
    (signature_v r) (has_signature_r r) (signature_r r) (has_signature_s r)
    (signature_s r).
Definition set_signature_v (n : Z) (r : EthereumTxRequest) :=
  mk_EthereumTxRequest (req_has_data_length r) (req_data_length r) true n
    (has_signature_r r) (signature_r r) (has_signature_s r) (signature_s r).
Definition set_signature_r (b : bytes_t) (r : EthereumTxRequest) :=
  mk_EthereumTxRequest (req_has_data_length r) (req_data_length r)
    (has_signature_v r) (signature_v r) true b (has_signature_s r)
    (signature_s r).
Definition set_signature_s (b : bytes_t) (r : EthereumTxRequest) :=
  mk_EthereumTxRequest (req_has_data_length r) (req_data_length r)
    (has_signature_v r) (signature_v r) (has_signature_r r) (signature_r r)
    true b.

(** What [ecdsa_sign_digest] hands back: its return value (0 on success)
    and, for a successful call, the 64 bytes written to [sig] and the byte
    written to [pby]. A failing call is taken to leave the buffer behind
    [sig] as it was. *)
Record ecdsa_result := mk_ecdsa_result {
  ecdsa_ret : Z; ecdsa_sig : list Z; ecdsa_pby : Z
}.

(** One call from the message dispatcher into this file. [button] is the
    answer [protectButton] will give, should the call reach it. *)
Inductive request :=
| SignTx (msg : EthereumSignTx) (node : HDNode) (button : bool)
| TxAck (tx : EthereumTxAck)
| Abort.

Section Session.

(** [keccak_Final] applied to a context that absorbed the given bytes. *)
Variable keccak_256 : list Z -> list Z.

(** [ecdsa_sign_digest(&secp256k1, priv_key, digest, sig, &pby)]. *)
Variable ecdsa_sign_digest : list Z -> list Z -> ecdsa_result.

Definition ethereum_signing_abort : cmd :=
  reading signing (fun b =>
    if b then
      (modify (set_privkey (repeat 0 32%nat)) ;;
       call layoutHome ;;
       modify (set_signing false))%cmd
    else skip).

(** The progress value is computed on [uint32_t] and passed as an [int];
    [data_total] is not 0 whenever the code gets here after an accepted
    descriptor (C leaves the division by 0 undefined, [Z] gives 0). *)
Definition send_request_chunk : cmd :=
  (reading (fun s => s) (fun s =>
     call (layoutProgress "Signing"
             (to_int (u32 (1000 - u32 (800 * data_left s) / data_total s))))) ;;
   modify (fun s => set_resp (set_req_has_data_length true (resp s)) s) ;;
   modify (fun s =>
     set_resp (set_req_data_length
                 (if data_left s <=? 1024 then data_left s else 1024)
                 (resp s)) s) ;;
   reading resp (fun r => call (msg_write r)))%cmd.

Definition send_signature : cmd :=
  (call (layoutProgress "Signing" 1000) ;;
   modify (fun s => set_hash (array_of 32 (keccak_256 (keccak_ctx s))) s) ;;
   reading (fun s => ecdsa_sign_digest (privkey s) (hash s)) (fun res =>
     let v := u8 (ecdsa_pby res) in
     if negb (ecdsa_ret res =? 0) then
       call (fsm_sendFailure FailureType_Failure_Other "Signing failed") ;;
       ethereum_signing_abort
     else
       modify (set_sig (array_of 64 (ecdsa_sig res))) ;;
       modify (set_privkey (repeat 0 32%nat)) ;;
       modify (fun s => set_resp (set_req_has_data_length false (resp s)) s) ;;
       modify (fun s => set_resp (set_signature_v (v + 27) (resp s)) s) ;;
       modify (fun s =>
         set_resp (set_signature_r (mk_bytes 32 (array_of 32 (sig s)))
                     (resp s)) s) ;;
       modify (fun s =>
         set_resp (set_signature_s
                     (mk_bytes 32 (array_of 32 (skipn 32 (sig s))))
                     (resp s)) s) ;;
       reading resp (fun r => call (msg_write r)) ;;
       ethereum_signing_abort))%cmd.

(** One term of the sum of stage 1. *)
Definition rlp_term (has : bool) (length_ firstbyte : Z) : Z :=
  if has then rlp_calculate_length (to_int length_) firstbyte else 1.

(** Stage 1 of [ethereum_signing_init]: [rlp_length] after the six [+=]. *)
Definition stage1_rlp_length (msg : EthereumSignTx) : Z :=
  let rlp_length := 0 in
  let rlp_length := u32 (rlp_length +
    rlp_term (has_nonce msg) (size (nonce msg)) (first_byte (bytes (nonce msg)))) in
  let rlp_length := u32 (rlp_length +
    rlp_term (has_gas_price msg) (size (gas_price msg))
      (first_byte (bytes (gas_price msg)))) in
  let rlp_length := u32 (rlp_length +
    rlp_term (has_gas_limit msg) (size (gas_limit msg))
      (first_byte (bytes (gas_limit msg)))) in
  let rlp_length := u32 (rlp_length +
    rlp_term (has_to msg) (size (to msg)) (first_byte (bytes (to msg)))) in
  let rlp_length := u32 (rlp_length +
    rlp_term (has_value msg) (size (value msg))
      (first_byte (bytes (value msg)))) in
  let rlp_length := u32 (rlp_length +
    rlp_term (has_data_length msg && has_data_initial_chunk msg)
      (data_length msg) (first_byte (bytes (data_initial_chunk msg)))) in
  rlp_length.

(** One of the five [if (msg->has_x) hash_rlp_field(...) else
    hash_rlp_length(1, 0)] of stage 2. *)
Definition hash_optional_field (has : bool) (f : bytes_t) : cmd :=
  if has then hash_rlp_field (bytes f) (size f) else hash_rlp_length 1 0.

(** Stage 2 up to and including the [value] field. *)
Definition stage2_header_fields (msg : EthereumSignTx) : cmd :=
  (hash_rlp_list_length (stage1_rlp_length msg) ;;
   call (layoutProgress "Signing" 100) ;;
   hash_optional_field (has_nonce msg) (nonce msg) ;;
   hash_optional_field (has_gas_price msg) (gas_price msg) ;;
   hash_optional_field (has_gas_limit msg) (gas_limit msg) ;;
   hash_optional_field (has_to msg) (to msg) ;;
   hash_optional_field (has_value msg) (value msg))%cmd.

(** Stage 2, the [data] field. *)
Definition stage2_data_field (msg : EthereumSignTx) : cmd :=
  if has_data_length msg && has_data_initial_chunk msg then
    (hash_rlp_length (data_length msg)
       (first_byte (bytes (data_initial_chunk msg))) ;;
     hash_data (bytes (data_initial_chunk msg))
       (size (data_initial_chunk msg)))%cmd
  else hash_rlp_length 1 0.

(** [ethereum_signing_init] from the confirmation dialog on. *)
Definition init_confirm_and_hash
    (msg : EthereumSignTx) (node : HDNode) (button : bool) : cmd :=
  (call (layoutEthereumConfirmTx
           (if has_to msg then Some (bytes (to msg)) else None)
           (if has_value msg then Some (bytes (value msg)) else None)
           (if has_value msg then size (value msg) else 0)) ;;
   call (protectButton button) ;;
   if negb button then
     call (fsm_sendFailure FailureType_Failure_ActionCancelled
             "Signing cancelled by user") ;;
     ethereum_signing_abort
   else
     call (layoutProgress "Signing" 0) ;;
     stage2_header_fields msg ;;
     stage2_data_field msg ;;
     call (layoutProgress "Signing" 200) ;;
     modify (set_privkey (array_of 32 (private_key node))) ;;
     if has_data_length msg
        && (data_length msg >? size (data_initial_chunk msg)) then
       modify (set_data_left
                 (u32 (data_length msg - size (data_initial_chunk msg)))) ;;
       send_request_chunk
     else
       send_signature)%cmd.

Definition ethereum_signing_init
    (msg : EthereumSignTx) (node : HDNode) (button : bool) : cmd :=
  (modify (set_signing true) ;;
   modify (set_keccak_ctx []) ;;
   modify (set_resp zero_EthereumTxRequest) ;;
   if has_data_length msg then
     if data_length msg =? 0 then
       call (fsm_sendFailure FailureType_Failure_Other
               "Invalid data length provided") ;;
       ethereum_signing_abort
     else if negb (has_data_initial_chunk msg)
             || (size (data_initial_chunk msg) =? 0) then
       call (fsm_sendFailure FailureType_Failure_Other
               "Data length provided, but no initial chunk") ;;
       ethereum_signing_abort
     else if size (data_initial_chunk msg) >? data_length msg then
       call (fsm_sendFailure FailureType_Failure_Other
               "Invalid size of initial chunk") ;;
       ethereum_signing_abort
     else
       modify (set_data_total (data_length msg)) ;;
       init_confirm_and_hash msg node button
   else
     modify (set_data_total 0) ;;
     init_confirm_and_hash msg node button)%cmd.

Definition ethereum_signing_txack (tx : EthereumTxAck) : cmd :=
  reading signing (fun b =>
    if negb b then
      (call (fsm_sendFailure FailureType_Failure_UnexpectedMessage
               "Not in Signing mode") ;;
       call layoutHome)%cmd
    else
      reading data_left (fun left =>
        if (left >? 0)
           && (negb (has_data_chunk tx) || (size (data_chunk tx) =? 0)) then
          (call (fsm_sendFailure FailureType_Failure_Other
                   "Empty data chunk received") ;;
           ethereum_signing_abort)%cmd
        else
          (hash_data (bytes (data_chunk tx)) (size (data_chunk tx)) ;;
           modify (fun s =>
             set_data_left (u32 (data_left s - size (data_chunk tx))) s) ;;
           reading data_left (fun left' =>
             if left' >? 0 then send_request_chunk else send_signature))%cmd)).

(** The three entry points of the file. *)
Definition serve (q : request) : cmd :=
  match q with
  | SignTx msg node button => ethereum_signing_init msg node button
  | TxAck tx => ethereum_signing_txack tx
  | Abort => ethereum_signing_abort
  end.

(** The states the device can be in: the boot state and whatever a call
    leaves behind. *)
Inductive reachable : state -> Prop :=
| reachable_boot : reachable boot_state
| reachable_serve (s : state) (q : request) :
    reachable s -> reachable (exec (serve q) s).

(** The digest and the result of the primitive when [send_signature] runs
    in state [s]. *)
Definition digest_of (s : state) : list Z :=
  array_of 32 (keccak_256 (keccak_ctx s)).
Definition signed (s : state) : ecdsa_result :=
  ecdsa_sign_digest (privkey s) (digest_of s).

(** The response [send_signature] stages on success. *)
Definition signature_response (s : state) : EthereumTxRequest :=
  let g := array_of 64 (ecdsa_sig (signed s)) in
  set_signature_s (mk_bytes 32 (array_of 32 (skipn 32 g)))
    (set_signature_r (mk_bytes 32 (array_of 32 g))
       (set_signature_v (u8 (ecdsa_pby (signed s)) + 27)
          (set_req_has_data_length false (resp s)))).

End Session.

(** ** What the spec says about the encoder *)

(** The [n] low base-256 digits of [x], most significant first. *)
Fixpoint big_endian (n : nat) (x : Z) : list Z :=
  match n with
  | O => []
  | S n' => big_endian n' (x / 256) ++ [x mod 256]
  end.

(** The number a big-endian digit string stands for. *)
Definition be_value (l : list Z) : Z := fold_left (fun a d => 256 * a + d) l 0.

(** Header of a byte string of length [L], by tier, as the spec lists them. *)
Definition spec_header (L : Z) : list Z :=
  if L <=? 55 then [0x80 + L]
  else if L <=? 255 then [0xb8; L]
  else if L <=? 65535 then 0xb9 :: big_endian 2 L
  else 0xba :: big_endian 3 L.

(** Canonical encoding of a byte-string field, as the spec words it: the
    three single-byte cases first, then header and body. *)
Definition spec_field_encoding (body : list Z) : list Z :=
  match body with
  | [b] =>
      if b =? 0x00 then [0x80]
      else if b <=? 0x7f then [b]
      else [0x81; b]
  | _ => spec_header (Z.of_nat (length body)) ++ body
  end.

(** ** The bytes each function hashes *)

(** The bytes [hash_rlp_length] pushes, branch by branch. *)
Definition length_header (length_ firstbyte : Z) : list Z :=
  if (length_ =? 1) && (firstbyte =? 0x00) then [0x80]
  else if (length_ =? 1) && (firstbyte <=? 0x7f) then [firstbyte]
  else if length_ <=? 55 then [u8 (0x80 + length_)]
  else if length_ <=? 0xff then [0xb8; u8 length_]
  else if length_ <=? 0xffff then
    [0xb9; u8 (Z.shiftr length_ 8); Z.land length_ 0xff]
  else [0xba; u8 (Z.shiftr length_ 16); u8 (Z.shiftr length_ 8);
        Z.land length_ 0xff].

(** The bytes [hash_rlp_list_length] pushes. *)
Definition list_header (length_ : Z) : list Z :=
  if length_ <=? 55 then [u8 (0xc0 + length_)]
  else if length_ <=? 0xff then [0xf8; u8 length_]
  else if length_ <=? 0xffff then
    [0xf9; u8 (Z.shiftr length_ 8); Z.land length_ 0xff]
  else [0xfa; u8 (Z.shiftr length_ 16); u8 (Z.shiftr length_ 8);
        Z.land length_ 0xff].

(** The bytes [hash_rlp_field] pushes. *)
Definition field_bytes (buf : list Z) (size_ : Z) : list Z :=
  length_header size_ (first_byte buf)
  ++ (if (size_ >? 1) || (first_byte buf >=? 0x80)
      then firstn (Z.to_nat size_) buf else []).

(** [absorb l] is the effect on the state of hashing the bytes [l]. *)
Definition absorb (l : list Z) (s : state) : state :=
  set_keccak_ctx (keccak_ctx s ++ l) s.

(** The bytes one of the five optional fields contributes in stage 2. *)
Definition optional_field_bytes (has : bool) (f : bytes_t) : list Z :=
  if has then field_bytes (bytes f) (size f) else [0x80].

(** The bytes stage 2 hashes before the [data] field: the list header and
    the five optional fields. *)
Definition header_fields_bytes (msg : EthereumSignTx) : list Z :=
  list_header (stage1_rlp_length msg)
  ++ optional_field_bytes (has_nonce msg) (nonce msg)
  ++ optional_field_bytes (has_gas_price msg) (gas_price msg)
  ++ optional_field_bytes (has_gas_limit msg) (gas_limit msg)
  ++ optional_field_bytes (has_to msg) (to msg)
  ++ optional_field_bytes (has_value msg) (value msg).

(** The bytes stage 2 hashes for the [data] field. *)
Definition data_field_bytes (msg : EthereumSignTx) : list Z :=
  if has_data_length msg && has_data_initial_chunk msg then
    length_header (data_length msg)
      (first_byte (bytes (data_initial_chunk msg)))
    ++ firstn (Z.to_nat (size (data_initial_chunk msg)))
         (bytes (data_initial_chunk msg))
  else [0x80].

(** The calls [ethereum_signing_init] makes between its checks and the
    choice between a chunk request and the signature, when the user
    confirms. *)
Definition confirmed_calls (msg : EthereumSignTx) : list event :=
  [layoutEthereumConfirmTx
     (if has_to msg then Some (bytes (to msg)) else None)
     (if has_value msg then Some (bytes (value msg)) else None)
     (if has_value msg then size (value msg) else 0);
   protectButton true;
   layoutProgress "Signing" 0;
   layoutProgress "Signing" 100;
   layoutProgress "Signing" 200].

(** ** Notions used to state the session properties *)

(** The key buffer holds only zero bytes. *)
Definition key_wiped (s : state) : Prop := privkey s = repeat 0 32%nat.

(** The descriptor [msg] with its initial chunk taken away. *)
Definition without_initial_chunk (msg : EthereumSignTx) : EthereumSignTx :=
  mk_EthereumSignTx
    (has_nonce msg) (nonce msg) (has_gas_price msg) (gas_price msg)
    (has_gas_limit msg) (gas_limit msg) (has_to msg) (to msg)
    (has_value msg) (value msg)
    false (mk_bytes 0 []) (has_data_length msg) (data_length msg).

(** A call is accepted when it passes every check that would end the
    operation: a descriptor whose declared length (if any) is positive, at
    most [2^32 - 1], and comes with a non-empty initial chunk no longer than
    it, confirmed on the button; or a non-empty chunk, no longer than what
    is still expected, delivered to an active session. *)
Definition accepted (s : state) (q : request) : Prop :=
  match q with
  | SignTx msg node button =>
      button = true
      /\ (has_data_length msg = true ->
          has_data_initial_chunk msg = true
          /\ 0 < size (data_initial_chunk msg)
          /\ size (data_initial_chunk msg) <= data_length msg
          /\ data_length msg < 2 ^ 32)
  | TxAck tx =>
      signing s = true
      /\ has_data_chunk tx = true
      /\ 0 < size (data_chunk tx)
      /\ size (data_chunk tx) <= data_left s
      /\ data_left s < 2 ^ 32
  | Abort => False
  end.

(** The payload still to come once the call has been served. *)
Definition remaining_after (s : state) (q : request) : Z :=
  match q with
  | SignTx msg _ _ =>
      if has_data_length msg
      then data_length msg - size (data_initial_chunk msg) else 0
  | TxAck tx => data_left s - size (data_chunk tx)
  | Abort => 0
  end.

(** The key the signature of the call is made with. *)
Definition session_key (s : state) (q : request) : list Z :=
  match q with
  | SignTx _ node _ => array_of 32 (private_key node)
  | _ => privkey s
  end.

(** The call ended with one request for more payload: the session is still
    active with [left] bytes to come, and the only message written asks for
    [min left 1024] bytes. *)
Definition requests_chunk (left : Z) (s' : state) (t : list event) : Prop :=
  signing s' = true
  /\ data_left s' = left
  /\ exists r,
       sent t = [r]
       /\ req_has_data_length r = true
       /\ req_data_length r = Z.min left 1024.

(** The call ended with the signature: the session is inactive, [hash]
    holds the digest [dg], and the only message written carries no
    [data_length] and the three signature fields made from the result [res]
    of the primitive: [signature_v] is the recovery byte plus 27, and
    [signature_r], [signature_s] are the two 32-byte halves of [sig]. *)
Definition delivers_signature
    (res : ecdsa_result) (dg : list Z) (s' : state) (t : list event) : Prop :=
  signing s' = false
  /\ hash s' = dg
  /\ exists r,
       sent t = [r]
       /\ req_has_data_length r = false
       /\ has_signature_v r = true
       /\ signature_v r = u8 (ecdsa_pby res) + 27
       /\ has_signature_r r = true
       /\ size (signature_r r) = 32
       /\ bytes (signature_r r) = array_of 32 (array_of 64 (ecdsa_sig res))
       /\ length (bytes (signature_r r)) = 32%nat
       /\ has_signature_s r = true
       /\ size (signature_s r) = 32
       /\ bytes (signature_s r)
          = array_of 32 (skipn 32 (array_of 64 (ecdsa_sig res)))
       /\ length (bytes (signature_s r)) = 32%nat.

(** The part of the state a signing operation starts afresh. *)
Definition operation_state (s : state)
  : bool * EthereumTxRequest * list Z * list Z :=
  (signing s, resp s, privkey s, keccak_ctx s).

(** ** Sample collaborators and inputs

    Stand-ins for the two primitives, used only to run the code on concrete
    inputs: the digest is the first 32 absorbed bytes, the signature is the
    digest followed by the key, with recovery id 1. *)

Definition sample_keccak_256 (l : list Z) : list Z := firstn 32 l.

Definition sample_ecdsa_sign_digest (k d : list Z) : ecdsa_result :=
  mk_ecdsa_result 0 (d ++ k) 1.

Definition sample_node : HDNode := mk_HDNode (repeat 7 32%nat).

Definition no_bytes : bytes_t := mk_bytes 0 (repeat 0 32%nat).

(** Nonce [0x01020304], nothing else. *)
Definition sample_tx_plain : EthereumSignTx :=
  mk_EthereumSignTx true (mk_bytes 4 [1; 2; 3; 4]) false no_bytes false no_bytes
    false no_bytes false no_bytes false no_bytes false 0.

(** The same with a payload of [total] bytes announced and [chunk] as the
    initial chunk. *)
Definition sample_tx_data (total : Z) (chunk : list Z) : EthereumSignTx :=
  mk_EthereumSignTx true (mk_bytes 4 [1; 2; 3; 4]) false no_bytes false no_bytes
    false no_bytes false no_bytes
    true (mk_bytes (Z.of_nat (length chunk)) chunk) true total.

(** The same with an initial chunk but no announced length. *)
Definition sample_tx_stray_chunk (chunk : list Z) : EthereumSignTx :=
  mk_EthereumSignTx true (mk_bytes 4 [1; 2; 3; 4]) false no_bytes false no_bytes
    false no_bytes false no_bytes
    true (mk_bytes (Z.of_nat (length chunk)) chunk) false 0.

Definition sample_ack (chunk : list Z) : EthereumTxAck :=
  mk_EthereumTxAck true (mk_bytes (Z.of_nat (length chunk)) chunk).

(** The session after a confirmed descriptor announcing 2 payload bytes and
    carrying the first: active, one byte to come. *)
Definition sample_awaiting : state :=
  exec (ethereum_signing_init sample_keccak_256 sample_ecdsa_sign_digest
          (sample_tx_data 2 [9]) sample_node true) boot_state.

(** ** Notions used for the further properties *)

(** The [size] bytes of a nanopb bytes field are there, and the field is
    within the 16 MB the encoder supports. *)
Definition field_ok (f : bytes_t) : Prop :=
  0 <= size f /\ size f <= Z.of_nat (length (bytes f)) /\ size f <= 0xFFFFFF.

(** The bytes a field carries. *)
Definition payload_of (f : bytes_t) : list Z :=
  firstn (Z.to_nat (size f)) (bytes f).

(** The five fields of a descriptor hashed by [hash_rlp_field] are sound. *)
Definition fields_ok (msg : EthereumSignTx) : Prop :=
  field_ok (nonce msg) /\ field_ok (gas_price msg) /\ field_ok (gas_limit msg)
  /\ field_ok (to msg) /\ field_ok (value msg).

(** The descriptor passes the three checks on the declared payload length
    at the head of [ethereum_signing_init]. *)
Definition passes_checks (msg : EthereumSignTx) : Prop :=
  has_data_length msg = true ->
  data_length msg <> 0
  /\ has_data_initial_chunk msg = true
  /\ size (data_initial_chunk msg) <> 0
  /\ size (data_initial_chunk msg) <= data_length msg.

(** A chunk message that carries at least one byte. *)
Definition chunk_ok (tx : EthereumTxAck) : Prop :=
  has_data_chunk tx = true
  /\ 0 < size (data_chunk tx)
  /\ size (data_chunk tx) <= Z.of_nat (length (bytes (data_chunk tx))).

(** Total size and concatenated bytes of a sequence of chunk messages. *)
Definition chunks_total (chunks : list EthereumTxAck) : Z :=
  fold_right (fun tx a => size (data_chunk tx) + a) 0 chunks.
Definition chunks_payload (chunks : list EthereumTxAck) : list Z :=
  flat_map (fun tx => payload_of (data_chunk tx)) chunks.

(** The dispatcher delivering the chunk messages one after the other. *)
Definition feed_chunks
    (keccak_256 : list Z -> list Z)
    (ecdsa_sign_digest : list Z -> list Z -> ecdsa_result)
    (chunks : list EthereumTxAck) : cmd :=
  fold_right
    (fun tx c => seq (ethereum_signing_txack keccak_256 ecdsa_sign_digest tx) c)
    skip chunks.

(** A reader of RLP headers (the inverse of the length prefix rules of the
    ledger's encoding): the length announced by a list header, or the
    bytes of a string item, and what follows. *)
Definition rlp_read_length (n : nat) (l : list Z) : option (Z * list Z) :=
  if (length l <? n)%nat then None
  else Some (be_value (firstn n l), skipn n l).

Definition rlp_read_list_header (l : list Z) : option (Z * list Z) :=
  match l with
  | [] => None
  | b :: rest =>
      if (0xc0 <=? b) && (b <=? 0xf7) then Some (b - 0xc0, rest)
      else if (0xf8 <=? b) && (b <=? 0xff) then
        rlp_read_length (Z.to_nat (b - 0xf7)) rest
      else None
  end.

Definition rlp_take (n : Z) (l : list Z) : option (list Z * list Z) :=
  if Z.of_nat (length l) <? n then None
  else Some (firstn (Z.to_nat n) l, skipn (Z.to_nat n) l).

Definition rlp_read_string (l : list Z) : option (list Z * list Z) :=
  match l with
  | [] => None
  | b :: rest =>
      if (0 <=? b) && (b <=? 0x7f) then Some ([b], rest)
      else if (0x80 <=? b) && (b <=? 0xb7) then rlp_take (b - 0x80) rest
      else if (0xb8 <=? b) && (b <=? 0xbf) then
        match rlp_read_length (Z.to_nat (b - 0xb7)) rest with
        | Some (n, rest') => rlp_take n rest'
        | None => None
        end
      else None
  end.

(** State [s'] is the end of a signing operation that hashed the bytes
    [ctx] and signed with [key]: the context holds [ctx], [hash] its
    digest, the session is inactive with the key buffer zeroed, and, when
    the primitive called with [key] and that digest succeeds, [sig] holds
    what it wrote and the staged response carries that signature. *)
Definition signed_over
    (keccak_256 : list Z -> list Z)
    (ecdsa_sign_digest : list Z -> list Z -> ecdsa_result)
    (key ctx : list Z) (s' : state) : Prop :=
  keccak_ctx s' = ctx
  /\ hash s' = array_of 32 (keccak_256 ctx)
  /\ signing s' = false
  /\ privkey s' = repeat 0 32%nat
  /\ (let res := ecdsa_sign_digest key (array_of 32 (keccak_256 ctx)) in
      ecdsa_ret res = 0 ->
      sig s' = array_of 64 (ecdsa_sig res)
      /\ signature_v (resp s') = u8 (ecdsa_pby res) + 27
      /\ bytes (signature_r (resp s')) = array_of 32 (sig s')
      /\ bytes (signature_s (resp s')) = array_of 32 (skipn 32 (sig s'))).

(** The two shapes of message the session writes: a request for payload
    carries [data_length] and no signature field, a signature carries the
    three signature fields and no [data_length]. *)
Definition no_signature_fields (r : EthereumTxRequest) : Prop :=
  has_signature_v r = false /\ has_signature_r r = false
  /\ has_signature_s r = false.
Definition chunk_request_shape (r : EthereumTxRequest) : Prop :=
  req_has_data_length r = true /\ no_signature_fields r.
Definition signature_shape (r : EthereumTxRequest) : Prop :=
  req_has_data_length r = false /\ has_signature_v r = true
  /\ has_signature_r r = true /\ has_signature_s r = true.

(** What an RLP reader gets for one of the five optional fields: the bytes
    of a present field, and the empty string for an absent field and for
    the single byte [0x00]. *)
Definition field_value (has : bool) (f : bytes_t) : list Z :=
  if has && negb ((size f =? 1) && (first_byte (bytes f) =? 0))
  then payload_of f else [].

(** The first byte of each of the five fields is not negative. *)
Definition first_bytes_ok (msg : EthereumSignTx) : Prop :=
  0 <= first_byte (bytes (nonce msg))
  /\ 0 <= first_byte (bytes (gas_price msg))
  /\ 0 <= first_byte (bytes (gas_limit msg))
  /\ 0 <= first_byte (bytes (to msg))
  /\ 0 <= first_byte (bytes (value msg)).

(** Reading [n] string items in a row, and reading a whole list of [n]
    string items: the header, a content of exactly the announced length,
    and nothing left over. *)
Fixpoint rlp_read_strings (n : nat) (l : list Z)
  : option (list (list Z) * list Z) :=
  match n with
  | O => Some ([], l)
  | S n' =>
      match rlp_read_string l with
      | Some (x, rest) =>
          match rlp_read_strings n' rest with
          | Some (xs, rest') => Some (x :: xs, rest')
          | None => None
          end
      | None => None
      end
  end.

Definition rlp_read_list (n : nat) (l : list Z) : option (list (list Z)) :=
  match rlp_read_list_header l with
  | Some (len, content) =>
      if len =? Z.of_nat (length content) then
        match rlp_read_strings n content with
        | Some (xs, []) => Some xs
        | _ => None
        end
      else None
  | None => None
  end.

(** A signature primitive that always fails, and further sample inputs. *)
Definition sample_ecdsa_failing (k d : list Z) : ecdsa_result :=
  mk_ecdsa_result 1 [] 0.

Definition sample_empty_ack : EthereumTxAck :=
  mk_EthereumTxAck false no_bytes.

Definition sample_two_chunks : list EthereumTxAck :=
  [sample_ack [5]; sample_ack [6]].


(** ** Basic facts about commands *)

Lemma absorb_app l1 l2 s : absorb l2 (absorb l1 s) = absorb (l1 ++ l2) s.
Proof. unfold absorb, set_keccak_ctx; simpl. now rewrite app_assoc. Qed.

Lemma hash_data_run buf n s :
  hash_data buf n s = (absorb (firstn (Z.to_nat n) buf) s, []).
Proof. reflexivity. Qed.

Lemma hash_rlp_length_run L b s :
  hash_rlp_length L b s = (absorb (length_header L b) s, []).
Proof.
  unfold hash_rlp_length, length_header.
  repeat match goal with
         | |- context [if ?c then _ else _] => destruct c
         end; reflexivity.
Qed.

Lemma hash_rlp_list_length_run L s :
  hash_rlp_list_length L s = (absorb (list_header L) s, []).
Proof.
  unfold hash_rlp_list_length, list_header.
  repeat match goal with
         | |- context [if ?c then _ else _] => destruct c
         end; reflexivity.
Qed.

Lemma hash_rlp_field_run buf n s :
  hash_rlp_field buf n s = (absorb (field_bytes buf n) s, []).
Proof.
  unfold hash_rlp_field, field_bytes, seq.
  rewrite hash_rlp_length_run.
  destruct ((n >? 1) || (first_byte buf >=? 0x80)).
  - rewrite hash_data_run, absorb_app. reflexivity.
  - unfold skip. rewrite !app_nil_r. reflexivity.
Qed.

(** ** Arithmetic of the header bytes *)

Lemma shiftr8 x : Z.shiftr x 8 = x / 256.
Proof. now rewrite Z.shiftr_div_pow2 by lia. Qed.

Lemma shiftr16 x : Z.shiftr x 16 = x / 256 / 256.
Proof.
  rewrite Z.shiftr_div_pow2 by lia.
  rewrite Z.div_div by lia. reflexivity.
Qed.

Lemma land_ff x : Z.land x 0xff = x mod 256.
Proof. change 0xff with (Z.ones 8). now rewrite Z.land_ones by lia. Qed.

Lemma be_value_snoc l d : be_value (l ++ [d]) = 256 * be_value l + d.
Proof. unfold be_value. now rewrite fold_left_app. Qed.

(** [big_endian n] is the big-endian numeral of every number that fits. *)
Lemma big_endian_value n x :
  0 <= x < 256 ^ Z.of_nat n -> be_value (big_endian n x) = x.
Proof.
  revert x; induction n as [|n IH]; intros x Hx.
  - simpl in *. unfold be_value; simpl. lia.
  - cbn [big_endian]. rewrite be_value_snoc, IH.
    + pose proof (Z.div_mod x 256). lia.
    + rewrite Nat2Z.inj_succ, Z.pow_succ_r in Hx by lia.
      split; [apply Z.div_pos; lia | apply Z.div_lt_upper_bound; lia].
Qed.

Lemma big_endian_quantity n x : length (big_endian n x) = n.
Proof.
  revert x; induction n as [|n IH]; intros x; cbn [big_endian]; [reflexivity|].
  rewrite length_app, IH. cbn [length]. lia.
Qed.

Lemma big_endian_2 x : big_endian 2 x = [u8 (Z.shiftr x 8); Z.land x 0xff].
Proof. now rewrite shiftr8, land_ff. Qed.

Lemma big_endian_3 x :
  big_endian 3 x = [u8 (Z.shiftr x 16); u8 (Z.shiftr x 8); Z.land x 0xff].
Proof. now rewrite shiftr16, shiftr8, land_ff. Qed.

(** ** The encoder: counting pass against emission pass *)

Lemma firstn_length_Z (buf : list Z) (n : Z) :
  0 <= n -> n <= Z.of_nat (length buf) ->
  Z.of_nat (length (firstn (Z.to_nat n) buf)) = n.
Proof. intros H0 H1. rewrite length_firstn. lia. Qed.

Lemma length_header_length L b :
  0 <= L ->
  Z.of_nat (length (length_header L b))
  = if (L =? 1) && (b <=? 0x7f) then 1
    else if L <=? 55 then 1
    else if L <=? 0xff then 2
    else if L <=? 0xffff then 3
    else 4.
Proof.
  intros HL. unfold length_header.
  destruct (Z.eqb_spec L 1); cbn [andb].
  - destruct (Z.eqb_spec b 0); [subst b; reflexivity|].
    destruct (b <=? 127); [reflexivity|].
    subst L; reflexivity.
  - repeat match goal with
           | |- context [if ?c then _ else _] => destruct c
           end; reflexivity.
Qed.

(** C4. For every field of [size_] bytes, [0 <= size_ <= 0xFFFFFF], held in
    [buf], the value [rlp_calculate_length size_ buf[0]] of the counting pass
    is exactly the number of bytes [hash_rlp_field buf size_] (header plus
    body) appends to the Keccak context in the emission pass; the
    single-byte cases ([size_ = 1], first byte 0, at most [0x7f], or above)
    are included. *)
Theorem rlp_calculate_length_counts_emitted_bytes
    (s : state) (buf : list Z) (size_ : Z)
    (Hlo : 0 <= size_) (Hhi : size_ <= 0xFFFFFF)
    (Hbuf : size_ <= Z.of_nat (length buf)) :
  Z.of_nat (length (keccak_ctx (exec (hash_rlp_field buf size_) s)))
  = Z.of_nat (length (keccak_ctx s))
    + rlp_calculate_length size_ (first_byte buf).
Proof.
  unfold exec. rewrite hash_rlp_field_run. cbn [fst absorb set_keccak_ctx keccak_ctx].
  rewrite length_app, Nat2Z.inj_add. f_equal.
  unfold field_bytes. rewrite length_app, Nat2Z.inj_add.
  rewrite length_header_length by assumption.
  unfold rlp_calculate_length.
  destruct (Z.eqb_spec size_ 1) as [E1|N1]; cbn [andb].
  - subst size_. change (1 >? 1) with false. cbn [orb].
    destruct (Z.leb_spec (first_byte buf) 0x7f) as [Hb|Hb].
    + replace (first_byte buf >=? 128) with false by (symmetry; lia).
      reflexivity.
    + replace (first_byte buf >=? 128) with true by (symmetry; lia).
      rewrite firstn_length_Z by lia. reflexivity.
  - destruct (Z.gtb_spec size_ 1) as [Hg|Hg]; cbn [orb].
    + rewrite firstn_length_Z by lia.
      repeat match goal with
             | |- context [if ?c then _ else _] => destruct c
             end; lia.
    + assert (size_ = 0) by lia. subst size_.
      destruct (first_byte buf >=? 128); reflexivity.
Qed.

Lemma rlp_calculate_length_counts_emitted_bytes_witness :
  Z.of_nat (length (keccak_ctx
     (exec (hash_rlp_field [0x05; 0; 0; 0] 1) boot_state))) = 1
  /\ rlp_calculate_length 1 0x05 = 1.
Proof.
  split; [|reflexivity].
  apply (rlp_calculate_length_counts_emitted_bytes boot_state [0x05; 0; 0; 0] 1);
    simpl; lia.
Defined.

(** ** The encoder: canonical form *)

Lemma firstn_one_first_byte (buf : list Z) :
  1 <= Z.of_nat (length buf) ->
  firstn (Z.to_nat 1) buf = [first_byte buf].
Proof. destruct buf as [|x l]; simpl; [lia|reflexivity]. Qed.

Lemma length_header_tiers L b :
  2 <= L -> L <= 0xFFFFFF -> length_header L b = spec_header L.
Proof.
  intros H2 Hhi. unfold length_header, spec_header.
  replace (L =? 1) with false by (symmetry; lia). cbn [andb].
  destruct (Z.leb_spec L 55).
  - unfold u8. rewrite Z.mod_small by lia. reflexivity.
  - destruct (Z.leb_spec L 0xff).
    + change 0xff with 255 in *. replace (L <=? 255) with true by (symmetry; lia).
      unfold u8. rewrite Z.mod_small by lia. reflexivity.
    + change 0xff with 255 in *. replace (L <=? 255) with false by (symmetry; lia).
      destruct (Z.leb_spec L 0xffff).
      * change 0xffff with 65535 in *.
        replace (L <=? 65535) with true by (symmetry; lia).
        rewrite big_endian_2. reflexivity.
      * change 0xffff with 65535 in *.
        replace (L <=? 65535) with false by (symmetry; lia).
        rewrite big_endian_3. reflexivity.
Qed.

(** C5. A byte-string field of [size_] bytes, [1 <= size_ <= 0xFFFFFF], is
    hashed in the canonical form of the spec: the single byte [0x00] as
    [0x80] alone, a single byte in [0x01..0x7f] as itself, a single byte from
    [0x80] up as [0x81] and the byte, and otherwise the header of its tier
    ([0x80+L]; [0xb8 L]; [0xb9] and [L] on two bytes; [0xba] and [L] on three
    bytes, big-endian) followed by the body. Nothing else is done. *)
Theorem hash_rlp_field_canonical
    (s : state) (buf : list Z) (size_ : Z)
    (Hlo : 1 <= size_) (Hhi : size_ <= 0xFFFFFF)
    (Hbuf : size_ <= Z.of_nat (length buf)) :
  hash_rlp_field buf size_ s
  = (absorb (spec_field_encoding (firstn (Z.to_nat size_) buf)) s, []).
Proof.
  rewrite hash_rlp_field_run. do 2 f_equal. unfold field_bytes.
  destruct (Z.eqb_spec size_ 1) as [E1|N1].
  - subst size_. rewrite firstn_one_first_byte by lia.
    unfold length_header, spec_field_encoding.
    change (1 =? 1) with true. change (1 >? 1) with false.
    cbn [andb]. cbn [orb].
    destruct (Z.eqb_spec (first_byte buf) 0) as [E0|N0].
    + rewrite E0. reflexivity.
    + destruct (Z.leb_spec (first_byte buf) 127) as [Hb|Hb].
      * replace (first_byte buf >=? 128) with false by (symmetry; lia).
        reflexivity.
      * replace (first_byte buf >=? 128) with true by (symmetry; lia).
        reflexivity.
  - replace (size_ >? 1) with true by (symmetry; lia). cbn [orb].
    rewrite length_header_tiers by lia.
    pose proof (firstn_length_Z buf size_ ltac:(lia) Hbuf) as Hlen.
    unfold spec_field_encoding.
    destruct (firstn (Z.to_nat size_) buf) as [|x [|y l]] eqn:E.
    + simpl in Hlen. lia.
    + simpl in Hlen. lia.
    + rewrite Hlen. reflexivity.
Qed.

Lemma hash_rlp_field_canonical_witness :
  hash_rlp_field [0x00; 0; 0; 0] 1 boot_state = (absorb [0x80] boot_state, [])
  /\ hash_rlp_field [0x7f; 0; 0; 0] 1 boot_state
     = (absorb [0x7f] boot_state, [])
  /\ hash_rlp_field [0x80; 0; 0; 0] 1 boot_state
     = (absorb [0x81; 0x80] boot_state, [])
  /\ hash_rlp_field [1; 2; 3; 4] 4 boot_state
     = (absorb [0x84; 1; 2; 3; 4] boot_state, []).
Proof.
  split; [|split; [|split]].
  - apply (hash_rlp_field_canonical boot_state [0x00; 0; 0; 0] 1); simpl; lia.
  - apply (hash_rlp_field_canonical boot_state [0x7f; 0; 0; 0] 1); simpl; lia.
  - apply (hash_rlp_field_canonical boot_state [0x80; 0; 0; 0] 1); simpl; lia.
  - apply (hash_rlp_field_canonical boot_state [1; 2; 3; 4] 4); simpl; lia.
Defined.

(** ** The encoder above 16 MiB *)

Lemma big_endian_3_low24 L : big_endian 3 (L mod 2 ^ 24) = big_endian 3 L.
Proof.
  cbn [big_endian app]. change (2 ^ 24) with 16777216.
  assert (H0 : (L mod 16777216) mod 256 = L mod 256)
    by (Z.div_mod_to_equations; lia).
  assert (H1 : (L mod 16777216 / 256) mod 256 = (L / 256) mod 256)
    by (Z.div_mod_to_equations; lia).
  assert (H2 : (L mod 16777216 / 256 / 256) mod 256 = (L / 256 / 256) mod 256)
    by (Z.div_mod_to_equations; lia).
  rewrite H0, H1, H2. reflexivity.
Qed.

(** C6, as the code has it. A length above [0xFFFFFF] is not refused: the
    string header is [0xba] and the list header [0xfa], each followed by the
    three big-endian bytes of the length reduced modulo [2^24]; the bits
    above are dropped and no collaborator is called (no failure is
    reported). *)
Theorem oversize_length_header_keeps_low_24_bits
    (s : state) (L b : Z) (Hbig : 0xFFFFFF < L) :
  hash_rlp_length L b s
  = (absorb (0xba :: big_endian 3 (L mod 2 ^ 24)) s, [])
  /\ hash_rlp_list_length L s
     = (absorb (0xfa :: big_endian 3 (L mod 2 ^ 24)) s, []).
Proof.
  rewrite hash_rlp_length_run, hash_rlp_list_length_run.
  rewrite big_endian_3_low24, big_endian_3.
  unfold length_header, list_header.
  change 0xFFFFFF with 16777215 in Hbig.
  replace (L =? 1) with false by (symmetry; lia). cbn [andb].
  replace (L <=? 55) with false by (symmetry; lia).
  replace (L <=? 0xff) with false by (symmetry; change 0xff with 255; lia).
  replace (L <=? 0xffff) with false by (symmetry; change 0xffff with 65535; lia).
  split; reflexivity.
Qed.

Lemma oversize_length_header_keeps_low_24_bits_witness :
  hash_rlp_length 0x1000001 0 boot_state
  = (absorb [0xba; 0; 0; 1] boot_state, [])
  /\ hash_rlp_list_length 0x1000001 boot_state
     = (absorb [0xfa; 0; 0; 1] boot_state, []).
Proof.
  apply (oversize_length_header_keeps_low_24_bits boot_state 0x1000001 0).
  reflexivity.
Defined.

(** ** The session: step lemmas *)

Lemma sent_app t1 t2 : sent (t1 ++ t2) = sent t1 ++ sent t2.
Proof.
  induction t1 as [|e t1 IH]; [reflexivity|].
  destruct e; simpl; rewrite ?IH; reflexivity.
Qed.

Lemma failures_app t1 t2 : failures (t1 ++ t2) = failures t1 ++ failures t2.
Proof.
  induction t1 as [|e t1 IH]; [reflexivity|].
  destruct e; simpl; rewrite ?IH; reflexivity.
Qed.

Lemma array_of_length n l : length (array_of n l) = n.
Proof.
  unfold array_of. rewrite length_app, length_firstn, repeat_length. lia.
Qed.

Ltac run_cmd :=
  unfold seq, reading, modify, call, skip; cbn [fst snd app].

Section SessionProofs.

Variable keccak_256 : list Z -> list Z.
Variable ecdsa_sign_digest : list Z -> list Z -> ecdsa_result.

Notation "'abort'" := ethereum_signing_abort (only parsing).
Notation "'sign'" :=
  (send_signature keccak_256 ecdsa_sign_digest) (only parsing).
Notation "'init'" :=
  (ethereum_signing_init keccak_256 ecdsa_sign_digest) (only parsing).
Notation "'txack'" :=
  (ethereum_signing_txack keccak_256 ecdsa_sign_digest) (only parsing).
Notation "'serving'" := (serve keccak_256 ecdsa_sign_digest) (only parsing).
Notation "'reach'" := (reachable keccak_256 ecdsa_sign_digest) (only parsing).
Notation "'digest'" := (digest_of keccak_256) (only parsing).
Notation "'signed_'" :=
  (signed keccak_256 ecdsa_sign_digest) (only parsing).
Notation "'response'" :=
  (signature_response keccak_256 ecdsa_sign_digest) (only parsing).

Lemma abort_active s :
  signing s = true ->
  abort s = (set_signing false (set_privkey (repeat 0 32%nat) s), [layoutHome]).
Proof.
  intros H. unfold ethereum_signing_abort, reading. rewrite H. reflexivity.
Qed.

Lemma abort_idle s : signing s = false -> abort s = (s, []).
Proof.
  intros H. unfold ethereum_signing_abort, reading. rewrite H. reflexivity.
Qed.

Lemma send_signature_success s :
  signing s = true -> ecdsa_ret (signed_ s) = 0 ->
  sign s
  = (mk_state false (data_total s) (data_left s) (response s)
       (digest s) (array_of 64 (ecdsa_sig (signed_ s)))
       (repeat 0 32%nat) (keccak_ctx s),
     [layoutProgress "Signing" 1000; msg_write (response s);
      layoutHome]).
Proof.
  intros Hs Hret. unfold send_signature. run_cmd.
  cbn [hash privkey keccak_ctx set_hash].
  fold (digest s). fold (signed_ s). rewrite Hret. cbn [Z.eqb negb].
  run_cmd. rewrite abort_active by (cbn; assumption).
  reflexivity.
Qed.

Lemma send_signature_failure s :
  signing s = true -> ecdsa_ret (signed_ s) <> 0 ->
  sign s
  = (mk_state false (data_total s) (data_left s) (resp s)
       (digest s) (sig s)
       (repeat 0 32%nat) (keccak_ctx s),
     [layoutProgress "Signing" 1000;
      fsm_sendFailure FailureType_Failure_Other "Signing failed";
      layoutHome]).
Proof.
  intros Hs Hret. unfold send_signature. run_cmd.
  cbn [hash privkey keccak_ctx set_hash].
  fold (digest s). fold (signed_ s).
  destruct (Z.eqb_spec (ecdsa_ret (signed_ s)) 0) as [E|_]; [contradiction|].
  cbn [negb]. run_cmd. rewrite abort_active by (cbn; assumption).
  reflexivity.
Qed.

Lemma send_signature_ends s :
  signing s = true ->
  signing (exec sign s) = false /\ key_wiped (exec sign s).
Proof.
  intros Hs. unfold exec.
  destruct (Z.eq_dec (ecdsa_ret (signed_ s)) 0) as [E|N].
  - rewrite send_signature_success by assumption. split; reflexivity.
  - rewrite send_signature_failure by assumption. split; reflexivity.
Qed.

Lemma send_request_chunk_run s :
  send_request_chunk s
  = (let r := set_req_data_length
                (if data_left s <=? 1024 then data_left s else 1024)
                (set_req_has_data_length true (resp s)) in
     (set_resp r s,
      [layoutProgress "Signing"
         (to_int (u32 (1000 - u32 (800 * data_left s) / data_total s)));
       msg_write r])).
Proof. reflexivity. Qed.

(** ** The session: a chunk outside a signing operation *)

(** C9. When no signing operation is active, [ethereum_signing_txack]
    reports the failure [UnexpectedMessage] ("Not in Signing mode", the
    ProtocolError of the spec), returns the display to the home screen, and
    leaves the whole state as it was: the active flag, [data_total] and
    [data_left], the Keccak context, the key buffer, the staged response and
    the digest and signature buffers. *)
Theorem txack_idle_reports_and_keeps_state
    (s : state) (tx : EthereumTxAck) (Hidle : signing s = false) :
  txack tx s
  = (s, [fsm_sendFailure FailureType_Failure_UnexpectedMessage
           "Not in Signing mode";
         layoutHome]).
Proof.
  unfold ethereum_signing_txack, reading. rewrite Hidle. reflexivity.
Qed.

(** ** The session: validation of the declared payload length *)

(** The state in which [ethereum_signing_init] runs its checks. *)
Lemma init_entry msg node button s :
  init msg node button s
  = (let s0 := set_resp zero_EthereumTxRequest
                 (set_keccak_ctx [] (set_signing true s)) in
     if has_data_length msg then
       if data_length msg =? 0 then
         (set_signing false (set_privkey (repeat 0 32%nat) s0),
          [fsm_sendFailure FailureType_Failure_Other
             "Invalid data length provided"; layoutHome])
       else if negb (has_data_initial_chunk msg)
               || (size (data_initial_chunk msg) =? 0) then
         (set_signing false (set_privkey (repeat 0 32%nat) s0),
          [fsm_sendFailure FailureType_Failure_Other
             "Data length provided, but no initial chunk"; layoutHome])
       else if size (data_initial_chunk msg) >? data_length msg then
         (set_signing false (set_privkey (repeat 0 32%nat) s0),
          [fsm_sendFailure FailureType_Failure_Other
             "Invalid size of initial chunk"; layoutHome])
       else
         init_confirm_and_hash keccak_256 ecdsa_sign_digest msg node button
           (set_data_total (data_length msg) s0)
     else
       init_confirm_and_hash keccak_256 ecdsa_sign_digest msg node button
         (set_data_total 0 s0)).
Proof.
  unfold ethereum_signing_init. run_cmd.
  destruct (has_data_length msg).
  - destruct (data_length msg =? 0); [reflexivity|].
    destruct (negb (has_data_initial_chunk msg)
              || (size (data_initial_chunk msg) =? 0)); [reflexivity|].
    destruct (size (data_initial_chunk msg) >? data_length msg);
      [reflexivity|].
    run_cmd.
    destruct (init_confirm_and_hash _ _ _ _ _ _) as [s2 t2]. reflexivity.
  - run_cmd.
    destruct (init_confirm_and_hash _ _ _ _ _ _) as [s2 t2]. reflexivity.
Qed.

(** C8. A descriptor that declares a payload length is refused by
    [ethereum_signing_init] when the length is 0, when no initial chunk or
    an empty one comes with it, or when the initial chunk is longer than the
    declared length. Each case reports one failure of type [Failure_Other]
    (the InvalidInput of the spec) with a text of its own, the only other
    call made is [layoutHome] of the abort (so neither the confirmation
    layout nor the button prompt is reached), and the session is left
    inactive with the key buffer zeroed. *)
Theorem init_rejects_bad_declared_length
    (s : state) (msg : EthereumSignTx) (node : HDNode) (button : bool)
    (Hdecl : has_data_length msg = true)
    (Hbad : data_length msg = 0
            \/ has_data_initial_chunk msg = false
            \/ size (data_initial_chunk msg) = 0
            \/ data_length msg < size (data_initial_chunk msg)) :
  exists text,
    trace (init msg node button) s
    = [fsm_sendFailure FailureType_Failure_Other text; layoutHome]
    /\ (data_length msg = 0 -> text = "Invalid data length provided")
    /\ (data_length msg <> 0 ->
        has_data_initial_chunk msg = false
        \/ size (data_initial_chunk msg) = 0 ->
        text = "Data length provided, but no initial chunk")
    /\ (data_length msg <> 0 ->
        has_data_initial_chunk msg = true ->
        size (data_initial_chunk msg) <> 0 ->
        text = "Invalid size of initial chunk")
    /\ signing (exec (init msg node button) s) = false
    /\ key_wiped (exec (init msg node button) s).
Proof.
  unfold trace, exec. rewrite init_entry, Hdecl. cbv zeta.
  destruct (Z.eqb_spec (data_length msg) 0) as [E0|N0].
  - eexists; split; [reflexivity|].
    repeat split; try reflexivity; intros; congruence.
  - destruct (has_data_initial_chunk msg) eqn:Hc; cbn [negb orb].
    + destruct (Z.eqb_spec (size (data_initial_chunk msg)) 0) as [Ez|Nz].
      * eexists; split; [reflexivity|].
        repeat split; try reflexivity; intros; congruence.
      * destruct (Z.gtb_spec (size (data_initial_chunk msg)) (data_length msg))
          as [Hg|Hg].
        -- eexists; split; [reflexivity|].
           repeat split; try reflexivity; intros; try congruence.
           match goal with H : _ \/ _ |- _ => destruct H; congruence end.
        -- exfalso. destruct Hbad as [H|[H|[H|H]]]; try congruence; lia.
    + eexists; split; [reflexivity|].
      repeat split; try reflexivity; intros; congruence.
Qed.

(** ** The session: the two passes of [ethereum_signing_init] *)

Lemma hash_optional_field_run has f s :
  hash_optional_field has f s = (absorb (optional_field_bytes has f) s, []).
Proof.
  unfold hash_optional_field, optional_field_bytes. destruct has.
  - apply hash_rlp_field_run.
  - apply hash_rlp_length_run.
Qed.

Lemma stage2_header_fields_run msg s :
  stage2_header_fields msg s
  = (absorb (header_fields_bytes msg) s, [layoutProgress "Signing" 100]).
Proof.
  unfold stage2_header_fields, header_fields_bytes. run_cmd.
  rewrite hash_rlp_list_length_run.
  rewrite !hash_optional_field_run. cbn [app]. rewrite !absorb_app.
  reflexivity.
Qed.

Lemma stage2_data_field_run msg s :
  stage2_data_field msg s = (absorb (data_field_bytes msg) s, []).
Proof.
  unfold stage2_data_field, data_field_bytes.
  destruct (has_data_length msg && has_data_initial_chunk msg).
  - run_cmd. rewrite hash_rlp_length_run, hash_data_run, absorb_app.
    reflexivity.
  - apply hash_rlp_length_run.
Qed.

Lemma init_confirm_and_hash_cancelled msg node s :
  signing s = true ->
  init_confirm_and_hash keccak_256 ecdsa_sign_digest msg node false s
  = (set_signing false (set_privkey (repeat 0 32%nat) s),
     [layoutEthereumConfirmTx
        (if has_to msg then Some (bytes (to msg)) else None)
        (if has_value msg then Some (bytes (value msg)) else None)
        (if has_value msg then size (value msg) else 0);
      protectButton false;
      fsm_sendFailure FailureType_Failure_ActionCancelled
        "Signing cancelled by user";
      layoutHome]).
Proof.
  intros Hs. unfold init_confirm_and_hash. run_cmd. cbn [negb]. run_cmd.
  rewrite abort_active by assumption. reflexivity.
Qed.

Lemma init_confirm_and_hash_confirmed msg node s :
  init_confirm_and_hash keccak_256 ecdsa_sign_digest msg node true s
  = (let s1 := set_privkey (array_of 32 (private_key node))
                 (absorb (header_fields_bytes msg ++ data_field_bytes msg) s) in
     let r := if has_data_length msg
                 && (data_length msg >? size (data_initial_chunk msg))
              then send_request_chunk
                     (set_data_left
                        (u32 (data_length msg - size (data_initial_chunk msg)))
                        s1)
              else sign s1 in
     (fst r, confirmed_calls msg ++ snd r)).
Proof.
  unfold init_confirm_and_hash. run_cmd. cbn [negb]. run_cmd.
  rewrite stage2_header_fields_run. rewrite stage2_data_field_run.
  rewrite absorb_app. cbv zeta.
  destruct (has_data_length msg
            && (data_length msg >? size (data_initial_chunk msg))).
  - run_cmd. reflexivity.
  - destruct (send_signature _ _ _) as [s2 t2]. reflexivity.
Qed.

Lemma txack_accepted_run tx s :
  signing s = true ->
  (data_left s >? 0)
  && (negb (has_data_chunk tx) || (size (data_chunk tx) =? 0)) = false ->
  txack tx s
  = (let s1 := set_data_left (u32 (data_left s - size (data_chunk tx)))
                 (absorb (firstn (Z.to_nat (size (data_chunk tx)))
                            (bytes (data_chunk tx))) s) in
     if data_left s1 >? 0 then send_request_chunk s1 else sign s1).
Proof.
  intros Hs Hc. unfold ethereum_signing_txack, reading. rewrite Hs.
  cbn [negb]. rewrite Hc. unfold hash_data. run_cmd. cbv zeta.
  cbn [data_left set_data_left set_keccak_ctx absorb].
  destruct (u32 (data_left s - size (data_chunk tx)) >? 0).
  - reflexivity.
  - destruct (send_signature _ _ _) as [s2 t2]. reflexivity.
Qed.

Lemma txack_empty_chunk_run tx s :
  signing s = true ->
  (data_left s >? 0)
  && (negb (has_data_chunk tx) || (size (data_chunk tx) =? 0)) = true ->
  txack tx s
  = (set_signing false (set_privkey (repeat 0 32%nat) s),
     [fsm_sendFailure FailureType_Failure_Other "Empty data chunk received";
      layoutHome]).
Proof.
  intros Hs Hc. unfold ethereum_signing_txack, reading. rewrite Hs.
  cbn [negb]. rewrite Hc. run_cmd. rewrite abort_active by assumption.
  reflexivity.
Qed.

(** ** The session: the key buffer *)

Lemma init_confirm_and_hash_key msg node button s :
  signing s = true ->
  signing (fst (init_confirm_and_hash keccak_256 ecdsa_sign_digest
                  msg node button s)) = false ->
  key_wiped (fst (init_confirm_and_hash keccak_256 ecdsa_sign_digest
                    msg node button s)).
Proof.
  intros Hs. destruct button.
  - rewrite init_confirm_and_hash_confirmed. cbv zeta. cbn [fst].
    destruct (has_data_length msg
              && (data_length msg >? size (data_initial_chunk msg))).
    + rewrite send_request_chunk_run. cbn. congruence.
    + intros _. apply send_signature_ends. exact Hs.
  - rewrite init_confirm_and_hash_cancelled by assumption.
    intros _. reflexivity.
Qed.

Lemma init_key msg node button s :
  signing (exec (init msg node button) s) = false ->
  key_wiped (exec (init msg node button) s).
Proof.
  unfold exec. rewrite init_entry. cbv zeta.
  destruct (has_data_length msg).
  - destruct (data_length msg =? 0); [reflexivity|].
    destruct (negb (has_data_initial_chunk msg)
              || (size (data_initial_chunk msg) =? 0)); [reflexivity|].
    destruct (size (data_initial_chunk msg) >? data_length msg);
      [reflexivity|].
    apply init_confirm_and_hash_key. reflexivity.
  - apply init_confirm_and_hash_key. reflexivity.
Qed.

Lemma txack_key tx s :
  (signing s = false -> key_wiped s) ->
  signing (exec (txack tx) s) = false -> key_wiped (exec (txack tx) s).
Proof.
  intros Hinv. unfold exec. destruct (signing s) eqn:Hs.
  - destruct ((data_left s >? 0)
              && (negb (has_data_chunk tx) || (size (data_chunk tx) =? 0)))
      eqn:Hc.
    + rewrite txack_empty_chunk_run by assumption. reflexivity.
    + rewrite txack_accepted_run by assumption. cbv zeta.
      match goal with |- context [if ?c then _ else _] => destruct c end.
      * rewrite send_request_chunk_run. cbn. congruence.
      * intros _. apply send_signature_ends. exact Hs.
  - unfold ethereum_signing_txack, reading. rewrite Hs.
    cbn [negb fst call seq]. intros _. apply Hinv. reflexivity.
Qed.

Lemma abort_key s :
  (signing s = false -> key_wiped s) ->
  signing (exec abort s) = false /\ key_wiped (exec abort s).
Proof.
  intros Hinv. unfold exec. destruct (signing s) eqn:Hs.
  - rewrite abort_active by assumption. split; reflexivity.
  - rewrite abort_idle by assumption. cbn [fst]. split; [exact Hs|].
    apply Hinv. reflexivity.
Qed.

Lemma reachable_idle_key_zero
    (s : state) (Hreach : reach s) (Hidle : signing s = false) :
  privkey s = repeat 0 32%nat.
Proof.
  revert Hidle. induction Hreach as [|s q Hreach IH].
  - reflexivity.
  - destruct q as [msg node button|tx|]; cbn [serve].
    + apply init_key.
    + apply txack_key. exact IH.
    + intros _. apply abort_key. exact IH.
Qed.

(** ** The session: chunk requests and the signature *)

Lemma send_signature_ctx s :
  signing s = true -> keccak_ctx (fst (sign s)) = keccak_ctx s.
Proof.
  intros Hs. destruct (Z.eq_dec (ecdsa_ret (signed_ s)) 0) as [E|N].
  - rewrite send_signature_success by assumption. reflexivity.
  - rewrite send_signature_failure by assumption. reflexivity.
Qed.

Lemma request_tail (s1 : state) (left : Z) (pre : list event) :
  signing s1 = true -> data_left s1 = left -> sent pre = [] ->
  requests_chunk left (fst (send_request_chunk s1))
    (pre ++ snd (send_request_chunk s1)).
Proof.
  intros Hs Hl Hpre. rewrite send_request_chunk_run. cbv zeta. cbn [fst snd].
  unfold requests_chunk. cbn [signing data_left set_resp].
  repeat split; try assumption.
  eexists. split.
  - rewrite sent_app, Hpre. reflexivity.
  - split; [reflexivity|]. cbn [req_data_length set_req_data_length].
    rewrite Hl. destruct (Z.leb_spec left 1024); lia.
Qed.

Lemma signature_tail (s1 : state) (pre : list event) :
  signing s1 = true -> sent pre = [] ->
  ecdsa_ret (ecdsa_sign_digest (privkey s1) (digest (fst (sign s1)))) = 0 ->
  delivers_signature
    (ecdsa_sign_digest (privkey s1) (digest (fst (sign s1))))
    (digest (fst (sign s1)))
    (fst (sign s1)) (pre ++ snd (sign s1)).
Proof.
  intros Hs Hpre. unfold digest_of. rewrite send_signature_ctx by assumption.
  fold (digest s1). fold (signed_ s1). intros Hret.
  rewrite send_signature_success by assumption. cbn [fst snd].
  unfold delivers_signature. cbn [signing hash].
  split; [reflexivity|]. split; [reflexivity|].
  eexists. split.
  - rewrite sent_app, Hpre. reflexivity.
  - unfold signature_response. cbn -[array_of u8 skipn Z.add].
    rewrite !array_of_length. repeat split; reflexivity.
Qed.

(** C7. After an accepted call (a confirmed descriptor, or a chunk delivered
    to the active session), let [left] be the payload still to come. While
    [left] is positive the session stays active with [data_left = left] and
    writes exactly one message, a request whose [data_length] is
    [min left 1024]. When [left] is 0 and the signature primitive succeeds,
    the session finalizes the digest into [hash], writes exactly one
    message, which has no [data_length], [signature_v] equal to the recovery
    byte plus 27 and [signature_r], [signature_s] of 32 bytes each, and
    becomes inactive. *)
Theorem chunk_request_until_signature
    (s : state) (q : request) (Hacc : accepted s q) :
  (0 < remaining_after s q ->
   requests_chunk (remaining_after s q)
     (exec (serving q) s) (trace (serving q) s))
  /\ (remaining_after s q = 0 ->
      ecdsa_ret (ecdsa_sign_digest (session_key s q)
                   (digest (exec (serving q) s))) = 0 ->
      delivers_signature
        (ecdsa_sign_digest (session_key s q) (digest (exec (serving q) s)))
        (digest (exec (serving q) s))
        (exec (serving q) s) (trace (serving q) s)).
Proof.
  destruct q as [msg node button|tx|]; cbn [accepted] in Hacc;
    [| |contradiction].
  - destruct Hacc as [Hb Hdecl]. subst button.
    unfold exec, trace. cbn [serve remaining_after session_key].
    rewrite init_entry. cbv zeta.
    destruct (has_data_length msg) eqn:Hlen.
    + destruct (Hdecl eq_refl) as (Hc & Hpos & Hle & Hmax).
      rewrite Hc. cbn [negb orb].
      replace (data_length msg =? 0) with false by (symmetry; lia).
      replace (size (data_initial_chunk msg) =? 0) with false
        by (symmetry; lia).
      replace (size (data_initial_chunk msg) >? data_length msg) with false
        by (symmetry; lia).
      rewrite init_confirm_and_hash_confirmed. cbv zeta. rewrite Hlen.
      cbn [andb fst snd].
      destruct (Z.gtb_spec (data_length msg) (size (data_initial_chunk msg)))
        as [Hgt|Hngt].
      * split; [intros _|intros H0; lia].
        apply request_tail; [reflexivity| |reflexivity].
        cbn [data_left set_data_left]. unfold u32.
        apply Z.mod_small. lia.
      * split; [intros H0; lia|intros _].
        match goal with
        | |- context [send_signature _ _ ?s1] =>
            apply (signature_tail s1 (confirmed_calls msg)); reflexivity
        end.
    + rewrite init_confirm_and_hash_confirmed. cbv zeta. rewrite Hlen.
      cbn [andb fst snd].
      split; [intros H0; lia|intros _].
      match goal with
      | |- context [send_signature _ _ ?s1] =>
          apply (signature_tail s1 (confirmed_calls msg)); reflexivity
      end.
  - destruct Hacc as (Hs & Hc & Hpos & Hle & Hmax).
    unfold exec, trace. cbn [serve remaining_after session_key].
    rewrite txack_accepted_run;
      [|assumption| rewrite Hc; cbn [negb orb];
                    replace (size (data_chunk tx) =? 0) with false
                      by (symmetry; lia);
                    apply andb_false_r].
    cbv zeta. cbn [data_left set_data_left].
    assert (Hu : u32 (data_left s - size (data_chunk tx))
                 = data_left s - size (data_chunk tx))
      by (unfold u32; apply Z.mod_small; lia).
    rewrite Hu.
    destruct (Z.gtb_spec (data_left s - size (data_chunk tx)) 0) as [Hgt|Hngt].
    + split; [intros _|intros H0; lia].
      apply (request_tail _ _ []); reflexivity || assumption.
    + split; [intros H0; lia|intros _].
      match goal with
      | |- context [send_signature _ _ ?s1] =>
          apply (signature_tail s1 []); reflexivity || assumption
      end.
Qed.

(** ** The session: an initial chunk without a declared length *)

Lemma stage1_without_initial_chunk msg :
  has_data_length msg = false ->
  stage1_rlp_length (without_initial_chunk msg) = stage1_rlp_length msg.
Proof.
  intros H. unfold stage1_rlp_length, without_initial_chunk.
  cbn [has_nonce nonce has_gas_price gas_price has_gas_limit gas_limit
       has_to to has_value value has_data_length data_length
       has_data_initial_chunk data_initial_chunk].
  rewrite H. reflexivity.
Qed.

Lemma header_fields_without_initial_chunk msg :
  has_data_length msg = false ->
  header_fields_bytes (without_initial_chunk msg) = header_fields_bytes msg.
Proof.
  intros H. unfold header_fields_bytes.
  rewrite stage1_without_initial_chunk by assumption. reflexivity.
Qed.

Lemma init_without_length msg node s :
  has_data_length msg = false ->
  init msg node true s
  = (let s1 := set_privkey (array_of 32 (private_key node))
                 (absorb (header_fields_bytes msg ++ [0x80])
                    (set_data_total 0
                       (set_resp zero_EthereumTxRequest
                          (set_keccak_ctx [] (set_signing true s))))) in
     (fst (sign s1), confirmed_calls msg ++ snd (sign s1))).
Proof.
  intros H. rewrite init_entry. cbv zeta. rewrite H.
  rewrite init_confirm_and_hash_confirmed. cbv zeta. rewrite H.
  cbn [andb]. unfold data_field_bytes. rewrite H. reflexivity.
Qed.

(** C10. A descriptor with an initial chunk and no declared payload length
    is served, once confirmed, exactly as the same descriptor without the
    chunk: the bytes hashed are the list header and the five other fields
    followed by the single byte [0x80] for the payload, none of them taken
    from the chunk, and when the signature primitive succeeds the operation
    ends with the signature of the digest of those bytes. *)
Theorem initial_chunk_without_length_ignored
    (s : state) (msg : EthereumSignTx) (node : HDNode)
    (Hnolen : has_data_length msg = false)
    (Hchunk : has_data_initial_chunk msg = true) :
  init msg node true s = init (without_initial_chunk msg) node true s
  /\ keccak_ctx (exec (init msg node true) s)
     = header_fields_bytes (without_initial_chunk msg) ++ [0x80]
  /\ (ecdsa_ret (ecdsa_sign_digest (array_of 32 (private_key node))
                   (digest (exec (init msg node true) s))) = 0 ->
      delivers_signature
        (ecdsa_sign_digest (array_of 32 (private_key node))
           (digest (exec (init msg node true) s)))
        (array_of 32
           (keccak_256
              (header_fields_bytes (without_initial_chunk msg) ++ [0x80])))
        (exec (init msg node true) s) (trace (init msg node true) s)).
Proof.
  assert (Hctx : keccak_ctx (exec (init msg node true) s)
                 = header_fields_bytes (without_initial_chunk msg) ++ [0x80]).
  { unfold exec. rewrite init_without_length by assumption.
    rewrite header_fields_without_initial_chunk by assumption.
    generalize (header_fields_bytes msg). intros hashed.
    cbv zeta. cbn [fst]. rewrite send_signature_ctx by reflexivity.
    reflexivity. }
  split; [|split].
  - rewrite !init_without_length by assumption.
    rewrite header_fields_without_initial_chunk by assumption.
    generalize (header_fields_bytes msg). intros hashed. reflexivity.
  - exact Hctx.
  - clear Hctx. unfold exec, trace.
    rewrite init_without_length by assumption.
    rewrite header_fields_without_initial_chunk by assumption.
    generalize (header_fields_bytes msg). intros hashed.
    cbv zeta. cbn [fst snd].
    match goal with
    | |- context [send_signature _ _ ?s1] =>
        pose proof (signature_tail s1 (confirmed_calls msg) eq_refl eq_refl)
          as Ht;
        pose proof (send_signature_ctx s1 eq_refl) as Hc
    end.
    cbn [privkey keccak_ctx set_privkey absorb set_keccak_ctx set_data_total
         set_resp set_signing app] in Ht, Hc.
    unfold digest_of in Ht at 3. rewrite Hc in Ht. exact Ht.
Qed.

(** ** The session: a descriptor received during a signing operation *)

Lemma failures_confirmed_calls msg : failures (confirmed_calls msg) = [].
Proof. reflexivity. Qed.

Lemma send_signature_fresh s1 s2 :
  signing s1 = true -> signing s2 = true ->
  resp s1 = resp s2 -> privkey s1 = privkey s2 ->
  keccak_ctx s1 = keccak_ctx s2 ->
  snd (sign s1) = snd (sign s2)
  /\ operation_state (fst (sign s1)) = operation_state (fst (sign s2))
  /\ forall text,
       ~ In (FailureType_Failure_UnexpectedMessage, text)
            (failures (snd (sign s1))).
Proof.
  intros H1 H2 Hr Hk Hc.
  assert (Hsig : signed_ s1 = signed_ s2)
    by (unfold signed, digest_of; rewrite Hk, Hc; reflexivity).
  assert (Hdig : digest s1 = digest s2)
    by (unfold digest_of; rewrite Hc; reflexivity).
  destruct (Z.eq_dec (ecdsa_ret (signed_ s1)) 0) as [E|N].
  - rewrite (send_signature_success s1), (send_signature_success s2)
      by (assumption || (rewrite <- Hsig; assumption)).
    unfold operation_state, signature_response. cbn [fst snd signing resp privkey keccak_ctx].
    rewrite Hsig, Hr, Hc. repeat split.
    intros text Hin; cbn [failures In snd] in Hin; intuition discriminate.
  - rewrite (send_signature_failure s1), (send_signature_failure s2)
      by (assumption || (rewrite <- Hsig; assumption)).
    unfold operation_state. cbn [fst snd signing resp privkey keccak_ctx].
    rewrite Hr, Hc. repeat split.
    intros text Hin; cbn [failures In snd] in Hin; intuition discriminate.
Qed.

Lemma init_confirm_and_hash_fresh msg node button s1 s2 :
  signing s1 = true -> signing s2 = true ->
  resp s1 = resp s2 -> keccak_ctx s1 = keccak_ctx s2 ->
  data_total s1 = data_total s2 ->
  let r1 := init_confirm_and_hash keccak_256 ecdsa_sign_digest
              msg node button s1 in
  let r2 := init_confirm_and_hash keccak_256 ecdsa_sign_digest
              msg node button s2 in
  snd r1 = snd r2
  /\ operation_state (fst r1) = operation_state (fst r2)
  /\ forall text,
       ~ In (FailureType_Failure_UnexpectedMessage, text) (failures (snd r1)).
Proof.
  intros H1 H2 Hr Hc Ht. cbv zeta. destruct button.
  - rewrite !init_confirm_and_hash_confirmed. cbv zeta. cbn [fst snd].
    destruct (has_data_length msg
              && (data_length msg >? size (data_initial_chunk msg))).
    + rewrite !send_request_chunk_run. cbv zeta.
      unfold operation_state.
      cbn [fst snd signing resp privkey keccak_ctx data_left data_total
           set_resp set_data_left set_privkey absorb set_keccak_ctx].
      rewrite H1, H2, Hr, Hc, Ht. repeat split.
      rewrite failures_app, failures_confirmed_calls.
      intros text [].
    + match goal with
      | |- context [operation_state (fst (send_signature _ _ ?a))
                    = operation_state (fst (send_signature _ _ ?b))] =>
          destruct (send_signature_fresh a b) as (Ha & Hb & Hn)
      end; try assumption;
        try (cbn [resp privkey keccak_ctx set_privkey absorb set_keccak_ctx];
             congruence).
      rewrite Ha. repeat split; try assumption.
      intros text. rewrite failures_app, failures_confirmed_calls, <- Ha.
      apply Hn.
  - rewrite !init_confirm_and_hash_cancelled by assumption.
    unfold operation_state.
    cbn [fst snd signing resp privkey keccak_ctx set_signing set_privkey].
    rewrite Hr, Hc. repeat split.
    intros text Hin; cbn [failures In snd] in Hin; intuition discriminate.
Qed.

(** C3, as the code has it. [ethereum_signing_init] never looks at
    [signing]: called while an operation is active it does not report
    [UnexpectedMessage] (the ProtocolError a stray chunk gets) but serves the
    new descriptor as it would from the idle state. It makes the same calls
    and leaves the same active flag, staged response, key buffer and Keccak
    context as from any other state, for instance the boot state; what the
    operation in progress had hashed and staged is discarded. *)
Theorem init_while_signing_restarts
    (s : state) (msg : EthereumSignTx) (node : HDNode) (button : bool)
    (Hactive : signing s = true) :
  (forall text,
     ~ In (FailureType_Failure_UnexpectedMessage, text)
          (failures (trace (init msg node button) s)))
  /\ trace (init msg node button) s
     = trace (init msg node button) boot_state
  /\ operation_state (exec (init msg node button) s)
     = operation_state (exec (init msg node button) boot_state)
  /\ init msg node button s = init msg node button (set_signing false s).
Proof.
  assert (Hmain :
    trace (init msg node button) s = trace (init msg node button) boot_state
    /\ operation_state (exec (init msg node button) s)
       = operation_state (exec (init msg node button) boot_state)
    /\ forall text,
         ~ In (FailureType_Failure_UnexpectedMessage, text)
              (failures (trace (init msg node button) s))).
  { unfold trace, exec. rewrite !init_entry. cbv zeta.
    destruct (has_data_length msg).
    - destruct (data_length msg =? 0);
        [repeat split; intros text Hin; cbn [failures In snd] in Hin;
         intuition discriminate|].
      destruct (negb (has_data_initial_chunk msg)
                || (size (data_initial_chunk msg) =? 0));
        [repeat split; intros text Hin; cbn [failures In snd] in Hin;
         intuition discriminate|].
      destruct (size (data_initial_chunk msg) >? data_length msg);
        [repeat split; intros text Hin; cbn [failures In snd] in Hin;
         intuition discriminate|].
      apply init_confirm_and_hash_fresh; reflexivity.
    - apply init_confirm_and_hash_fresh; reflexivity. }
  destruct Hmain as (Ht & Ho & Hn).
  repeat split; try assumption.
Qed.

(** ** The session: a chunk longer than what is left *)

(** X17. For any primitives and any active session: a chunk longer than
    [data_left] is hashed like any other (its bytes are appended to the
    Keccak context), [data_left] wraps around to
    [data_left - size + 2^32], no failure is reported, the key buffer is
    kept, and the session stays active and asks for more. Nothing in
    [ethereum_signing_txack] compares the two sizes. *)
Lemma txack_overrun_run tx s :
  signing s = true -> has_data_chunk tx = true ->
  0 <= data_left s -> data_left s < size (data_chunk tx) ->
  size (data_chunk tx) < 2 ^ 32 ->
  signing (exec (txack tx) s) = true
  /\ data_left (exec (txack tx) s)
     = data_left s - size (data_chunk tx) + 2 ^ 32
  /\ failures (trace (txack tx) s) = []
  /\ map req_data_length (sent (trace (txack tx) s))
     = [Z.min (data_left s - size (data_chunk tx) + 2 ^ 32) 1024]
  /\ keccak_ctx (exec (txack tx) s)
     = keccak_ctx s
       ++ firstn (Z.to_nat (size (data_chunk tx))) (bytes (data_chunk tx))
  /\ privkey (exec (txack tx) s) = privkey s.
Proof.
  intros Hs Hc H0 Hlt Hmax. unfold exec, trace.
  rewrite txack_accepted_run;
    [|assumption| rewrite Hc; cbn [negb orb];
                  replace (size (data_chunk tx) =? 0) with false
                    by (symmetry; lia);
                  apply andb_false_r].
  cbv zeta. cbn [data_left set_data_left].
  assert (Hu : u32 (data_left s - size (data_chunk tx))
               = data_left s - size (data_chunk tx) + 2 ^ 32).
  { unfold u32. symmetry.
    apply (Z.mod_unique _ _ (-1)); lia. }
  rewrite Hu.
  replace (data_left s - size (data_chunk tx) + 2 ^ 32 >? 0) with true
    by (symmetry; lia).
  rewrite send_request_chunk_run. cbv zeta.
  cbn [fst snd signing data_left set_resp set_data_left absorb set_keccak_ctx
       failures sent map req_data_length set_req_data_length keccak_ctx
       privkey].
  split; [assumption|]. split; [reflexivity|]. split; [reflexivity|].
  split; [|split; reflexivity].
  f_equal. destruct (Z.leb_spec (data_left s - size (data_chunk tx) + 2 ^ 32) 1024);
    lia.
Qed.

(** ** Further properties of the session *)

Lemma init_passes msg node button s :
  passes_checks msg ->
  init msg node button s
  = init_confirm_and_hash keccak_256 ecdsa_sign_digest msg node button
      (set_data_total (if has_data_length msg then data_length msg else 0)
         (set_resp zero_EthereumTxRequest
            (set_keccak_ctx [] (set_signing true s)))).
Proof.
  intros Hok. rewrite init_entry. cbv zeta. unfold passes_checks in Hok.
  destruct (has_data_length msg); [|reflexivity].
  destruct (Hok eq_refl) as (Hn0 & Hc & Hs0 & Hle).
  rewrite Hc. cbn [negb orb].
  replace (data_length msg =? 0) with false by (symmetry; lia).
  replace (size (data_initial_chunk msg) =? 0) with false by (symmetry; lia).
  replace (size (data_initial_chunk msg) >? data_length msg) with false
    by (symmetry; lia).
  reflexivity.
Qed.

Lemma send_signature_replies s :
  signing s = true ->
  (length (failures (snd (sign s))) + length (sent (snd (sign s))))%nat = 1%nat.
Proof.
  intros Hs. destruct (Z.eq_dec (ecdsa_ret (signed_ s)) 0) as [E|N].
  - rewrite send_signature_success by assumption. reflexivity.
  - rewrite send_signature_failure by assumption. reflexivity.
Qed.

Lemma init_confirm_and_hash_replies msg node button s :
  signing s = true ->
  (length (failures (snd (init_confirm_and_hash keccak_256 ecdsa_sign_digest
                            msg node button s)))
   + length (sent (snd (init_confirm_and_hash keccak_256 ecdsa_sign_digest
                          msg node button s))))%nat = 1%nat.
Proof.
  intros Hs. destruct button.
  - rewrite init_confirm_and_hash_confirmed. cbv zeta. cbn [snd].
    rewrite failures_app, sent_app. cbn [confirmed_calls failures sent app length].
    destruct (has_data_length msg
              && (data_length msg >? size (data_initial_chunk msg))).
    + rewrite send_request_chunk_run. reflexivity.
    + apply send_signature_replies. exact Hs.
  - rewrite init_confirm_and_hash_cancelled by assumption. reflexivity.
Qed.

Lemma init_replies msg node button s :
  (length (failures (trace (init msg node button) s))
   + length (sent (trace (init msg node button) s)))%nat = 1%nat.
Proof.
  unfold trace. rewrite init_entry. cbv zeta.
  destruct (has_data_length msg).
  - destruct (data_length msg =? 0); [reflexivity|].
    destruct (negb (has_data_initial_chunk msg)
              || (size (data_initial_chunk msg) =? 0)); [reflexivity|].
    destruct (size (data_initial_chunk msg) >? data_length msg);
      [reflexivity|].
    apply init_confirm_and_hash_replies. reflexivity.
  - apply init_confirm_and_hash_replies. reflexivity.
Qed.

Lemma txack_replies tx s :
  (length (failures (trace (txack tx) s))
   + length (sent (trace (txack tx) s)))%nat = 1%nat.
Proof.
  unfold trace. destruct (signing s) eqn:Hs.
  - destruct ((data_left s >? 0)
              && (negb (has_data_chunk tx) || (size (data_chunk tx) =? 0)))
      eqn:Hc.
    + rewrite txack_empty_chunk_run by assumption. reflexivity.
    + rewrite txack_accepted_run by assumption. cbv zeta.
      match goal with |- context [if ?c then _ else _] => destruct c end.
      * rewrite send_request_chunk_run. reflexivity.
      * apply send_signature_replies. exact Hs.
  - unfold ethereum_signing_txack, reading. rewrite Hs. reflexivity.
Qed.

(** X1. Whatever the state, a descriptor and a chunk are each answered
    exactly once: the call either reports one failure or writes one message
    to the transport, never both and never neither. An abort answers
    nothing. *)
Theorem one_reply_per_call (s : state) (q : request) :
  (length (failures (trace (serving q) s))
   + length (sent (trace (serving q) s)))%nat
  = match q with Abort => 0%nat | _ => 1%nat end.
Proof.
  destruct q as [msg node button|tx|]; cbn [serve].
  - apply init_replies.
  - apply txack_replies.
  - unfold trace. destruct (signing s) eqn:Hs.
    + rewrite abort_active by assumption. reflexivity.
    + rewrite abort_idle by assumption. reflexivity.
Qed.

(** X2. [ethereum_signing_abort] leaves the session inactive, and a second
    abort right after does nothing at all. It touches the active flag and
    the key buffer only: [data_total], [data_left], the staged response,
    the Keccak context and the digest and signature buffers keep their
    values, and the key buffer is zeroed exactly when the session was
    active. *)
Theorem abort_idempotent_keeps_accounting (s : state) :
  signing (exec abort s) = false
  /\ abort (exec abort s) = (exec abort s, [])
  /\ privkey (exec abort s)
     = (if signing s then repeat 0 32%nat else privkey s)
  /\ data_total (exec abort s) = data_total s
  /\ data_left (exec abort s) = data_left s
  /\ resp (exec abort s) = resp s
  /\ keccak_ctx (exec abort s) = keccak_ctx s
  /\ hash (exec abort s) = hash s
  /\ sig (exec abort s) = sig s.
Proof.
  unfold exec. destruct (signing s) eqn:Hs.
  - rewrite abort_active by assumption. cbn [fst].
    rewrite abort_idle by reflexivity. repeat split.
  - rewrite abort_idle by assumption. cbn [fst].
    rewrite abort_idle by assumption. repeat split. exact Hs.
Qed.

(** X3. An active session that still expects payload ([data_left > 0])
    refuses a chunk message without data or with an empty one: it reports
    [Failure_Other] "Empty data chunk received" and aborts. Nothing is
    hashed, [data_left] is not changed, the key is zeroed and the session
    ends. *)
Theorem txack_empty_chunk_aborts
    (s : state) (tx : EthereumTxAck)
    (Hactive : signing s = true) (Hleft : 0 < data_left s)
    (Hempty : has_data_chunk tx = false \/ size (data_chunk tx) = 0) :
  txack tx s
  = (set_signing false (set_privkey (repeat 0 32%nat) s),
     [fsm_sendFailure FailureType_Failure_Other "Empty data chunk received";
      layoutHome]).
Proof.
  apply txack_empty_chunk_run; [assumption|].
  replace (data_left s >? 0) with true by (symmetry; lia). cbn [andb].
  destruct Hempty as [H|H]; rewrite H.
  - reflexivity.
  - apply orb_true_r.
Qed.

(** X4. When the user declines at the button, a descriptor that passed the
    length checks ends like this: the confirmation layout and the button
    prompt, then the failure [ActionCancelled] and the home screen. No
    message is written, not one byte has been hashed, the key of the node
    has not been copied (the key buffer holds zeros) and the session is
    inactive. *)
Theorem init_cancelled_hashes_nothing
    (s : state) (msg : EthereumSignTx) (node : HDNode)
    (Hok : passes_checks msg) :
  trace (init msg node false) s
  = [layoutEthereumConfirmTx
       (if has_to msg then Some (bytes (to msg)) else None)
       (if has_value msg then Some (bytes (value msg)) else None)
       (if has_value msg then size (value msg) else 0);
     protectButton false;
     fsm_sendFailure FailureType_Failure_ActionCancelled
       "Signing cancelled by user";
     layoutHome]
  /\ signing (exec (init msg node false) s) = false
  /\ privkey (exec (init msg node false) s) = repeat 0 32%nat
  /\ keccak_ctx (exec (init msg node false) s) = []
  /\ data_left (exec (init msg node false) s) = data_left s.
Proof.
  unfold trace, exec. rewrite init_passes by assumption.
  rewrite init_confirm_and_hash_cancelled by reflexivity.
  repeat split.
Qed.

(** X5. When the payload is complete after an accepted call and the
    signature primitive fails (returns a value other than 0), the only
    answer is the failure [Failure_Other] "Signing failed": no signature
    message is written, the session ends and the key buffer is zeroed. *)
Theorem signing_failure_reported
    (s : state) (q : request) (Hacc : accepted s q)
    (Hdone : remaining_after s q = 0)
    (Hfail : ecdsa_ret (ecdsa_sign_digest (session_key s q)
                          (digest (exec (serving q) s))) <> 0) :
  failures (trace (serving q) s)
  = [(FailureType_Failure_Other, "Signing failed")]
  /\ sent (trace (serving q) s) = []
  /\ signing (exec (serving q) s) = false
  /\ privkey (exec (serving q) s) = repeat 0 32%nat.
Proof.
  assert (Htail : forall s1 pre,
    signing s1 = true -> failures pre = [] -> sent pre = [] ->
    ecdsa_ret (ecdsa_sign_digest (privkey s1) (digest (fst (sign s1)))) <> 0 ->
    failures (pre ++ snd (sign s1))
    = [(FailureType_Failure_Other, "Signing failed")]
    /\ sent (pre ++ snd (sign s1)) = []
    /\ signing (fst (sign s1)) = false
    /\ privkey (fst (sign s1)) = repeat 0 32%nat).
  { intros s1 pre Hs1 Hf Hp. unfold digest_of.
    rewrite send_signature_ctx by assumption.
    fold (digest s1). fold (signed_ s1). intros Hret.
    rewrite send_signature_failure by assumption. cbn [fst snd].
    rewrite failures_app, sent_app, Hf, Hp. repeat split. }
  revert Hfail.
  destruct q as [msg node button|tx|]; cbn [accepted] in Hacc;
    [| |contradiction].
  - destruct Hacc as [Hb Hdecl]. subst button.
    cbn [remaining_after] in Hdone.
    unfold exec, trace. cbn [serve session_key].
    rewrite init_passes.
    2:{ intros Hlen. destruct (Hdecl Hlen) as (Hc & Hpos & Hle & Hmax).
        repeat split; try assumption; lia. }
    rewrite init_confirm_and_hash_confirmed. cbv zeta.
    destruct (has_data_length msg) eqn:Hlen; cbn [andb fst snd].
    + replace (data_length msg >? size (data_initial_chunk msg)) with false
        by (symmetry; lia).
      cbn [fst snd]. intros Hfail.
      match goal with
      | |- context [send_signature _ _ ?s1] =>
          apply (Htail s1 (confirmed_calls msg)); reflexivity || assumption
      end.
    + intros Hfail.
      match goal with
      | |- context [send_signature _ _ ?s1] =>
          apply (Htail s1 (confirmed_calls msg)); reflexivity || assumption
      end.
  - destruct Hacc as (Hs & Hc & Hpos & Hle & Hmax).
    cbn [remaining_after] in Hdone.
    unfold exec, trace. cbn [serve session_key].
    rewrite txack_accepted_run;
      [|assumption| rewrite Hc; cbn [negb orb];
                    replace (size (data_chunk tx) =? 0) with false
                      by (symmetry; lia);
                    apply andb_false_r].
    cbv zeta. cbn [data_left set_data_left].
    rewrite Hdone. change (u32 0 >? 0) with false. cbn [fst snd].
    intros Hfail.
    match goal with
    | |- context [send_signature _ _ ?s1] =>
        apply (Htail s1 []); reflexivity || assumption
    end.
Qed.

(** ** The payload delivered in chunks *)

Lemma exec_seq c1 c2 s : exec (seq c1 c2) s = exec c2 (exec c1 s).
Proof.
  unfold exec, seq. destruct (c1 s) as [s1 t1]. cbn [fst].
  destruct (c2 s1) as [s2 t2]. reflexivity.
Qed.

Lemma trace_seq c1 c2 s :
  trace (seq c1 c2) s = trace c1 s ++ trace c2 (exec c1 s).
Proof.
  unfold exec, trace, seq. destruct (c1 s) as [s1 t1]. cbn [fst].
  destruct (c2 s1) as [s2 t2]. reflexivity.
Qed.

Lemma chunks_total_nonneg chunks :
  Forall chunk_ok chunks -> 0 <= chunks_total chunks.
Proof.
  induction 1 as [|tx rest Htx _ IH]; cbn [chunks_total fold_right]; [lia|].
  fold (chunks_total rest). destruct Htx as (_ & Hpos & _). lia.
Qed.

Lemma chunks_total_zero chunks :
  Forall chunk_ok chunks -> chunks_total chunks = 0 -> chunks = [].
Proof.
  intros Hok H0. destruct Hok as [|tx rest Htx Hrest]; [reflexivity|].
  cbn [chunks_total fold_right] in H0. fold (chunks_total rest) in H0.
  pose proof (chunks_total_nonneg rest Hrest).
  destruct Htx as (_ & Hpos & _). lia.
Qed.

Lemma send_signature_final s :
  signing s = true ->
  signed_over keccak_256 ecdsa_sign_digest (privkey s) (keccak_ctx s)
    (fst (sign s)).
Proof.
  intros Hs. unfold signed_over. cbv zeta.
  fold (digest s). fold (signed_ s).
  destruct (Z.eq_dec (ecdsa_ret (signed_ s)) 0) as [E|N].
  - rewrite send_signature_success by assumption.
    cbn [fst keccak_ctx hash signing privkey sig resp].
    repeat split.
  - rewrite send_signature_failure by assumption.
    cbn [fst keccak_ctx hash signing privkey sig resp].
    split; [reflexivity|]. split; [reflexivity|]. split; [reflexivity|].
    split; [reflexivity|]. intros E. contradiction.
Qed.

Lemma feed_chunks_final chunks :
  forall s,
    signing s = true -> 0 < data_left s -> data_left s < 2 ^ 32 ->
    Forall chunk_ok chunks -> chunks_total chunks = data_left s ->
    signed_over keccak_256 ecdsa_sign_digest (privkey s)
      (keccak_ctx s ++ chunks_payload chunks)
      (exec (feed_chunks keccak_256 ecdsa_sign_digest chunks) s).
Proof.
  induction chunks as [|tx rest IH]; intros s Hs Hpos Hmax Hok Htot.
  - cbn [chunks_total fold_right] in Htot. lia.
  - inversion Hok as [|tx' rest' Htx Hrest]; subst tx' rest'.
    cbn [chunks_total fold_right] in Htot. fold (chunks_total rest) in Htot.
    pose proof (chunks_total_nonneg rest Hrest) as Hnn.
    destruct Htx as (Hc & Hsz & Hlen).
    cbn [feed_chunks fold_right].
    fold (feed_chunks keccak_256 ecdsa_sign_digest rest).
    rewrite exec_seq. unfold exec at 2.
    rewrite txack_accepted_run;
      [|assumption| rewrite Hc; cbn [negb orb];
                    replace (size (data_chunk tx) =? 0) with false
                      by (symmetry; lia);
                    apply andb_false_r].
    cbv zeta. cbn [data_left set_data_left].
    assert (Hu : u32 (data_left s - size (data_chunk tx))
                 = data_left s - size (data_chunk tx))
      by (unfold u32; apply Z.mod_small; lia).
    rewrite Hu.
    cbn [chunks_payload flat_map]. fold (chunks_payload rest).
    fold (payload_of (data_chunk tx)).
    destruct (Z.gtb_spec (data_left s - size (data_chunk tx)) 0) as [Hgt|Hngt].
    + rewrite send_request_chunk_run. cbv zeta. cbn [fst].
      match goal with
      | |- signed_over _ _ _ _ (exec _ ?s2) =>
          pose proof (IH s2) as IH2
      end.
      cbn [signing data_left privkey keccak_ctx set_resp set_data_left
           absorb set_keccak_ctx] in IH2.
      rewrite <- app_assoc in IH2.
      apply IH2; try assumption; lia.
    + assert (rest = []) by (apply chunks_total_zero; [assumption|lia]).
      subst rest. cbn [feed_chunks fold_right chunks_payload flat_map].
      unfold exec, skip. cbn [fst]. rewrite app_nil_r.
      match goal with
      | |- signed_over _ _ _ _ (fst (send_signature _ _ ?s1)) =>
          apply (send_signature_final s1)
      end.
      exact Hs.
Qed.


Lemma init_confirmed_state msg node s :
  passes_checks msg ->
  init msg node true s
  = (let s1 := set_privkey (array_of 32 (private_key node))
                 (absorb (header_fields_bytes msg ++ data_field_bytes msg)
                    (set_data_total
                       (if has_data_length msg then data_length msg else 0)
                       (set_resp zero_EthereumTxRequest
                          (set_keccak_ctx [] (set_signing true s))))) in
     let r := if has_data_length msg
                 && (data_length msg >? size (data_initial_chunk msg))
              then send_request_chunk
                     (set_data_left
                        (u32 (data_length msg - size (data_initial_chunk msg)))
                        s1)
              else sign s1 in
     (fst r, confirmed_calls msg ++ snd r)).
Proof.
  intros Hok. rewrite init_passes by assumption.
  apply init_confirm_and_hash_confirmed.
Qed.

Lemma accepted_passes_checks s msg node :
  accepted s (SignTx msg node true) -> passes_checks msg.
Proof.
  intros [_ Hdecl] Hlen. destruct (Hdecl Hlen) as (Hc & Hpos & Hle & Hmax).
  repeat split; try assumption; lia.
Qed.

Lemma init_then_chunks_final
    (s : state) (msg : EthereumSignTx) (node : HDNode)
    (chunks : list EthereumTxAck)
    (Hacc : accepted s (SignTx msg node true))
    (Hchunks : Forall chunk_ok chunks)
    (Htotal : chunks_total chunks = remaining_after s (SignTx msg node true)) :
  signed_over keccak_256 ecdsa_sign_digest (array_of 32 (private_key node))
    (header_fields_bytes msg ++ data_field_bytes msg ++ chunks_payload chunks)
    (exec (seq (init msg node true)
             (feed_chunks keccak_256 ecdsa_sign_digest chunks)) s).
Proof.
  pose proof (accepted_passes_checks s msg node Hacc) as Hok.
  pose proof (chunks_total_nonneg chunks Hchunks) as Hnn.
  destruct Hacc as [_ Hdecl]. cbn [remaining_after] in Htotal.
  rewrite exec_seq. unfold exec at 2.
  rewrite init_confirmed_state by assumption. cbv zeta. cbn [fst].
  rewrite app_assoc.
  generalize (header_fields_bytes msg ++ data_field_bytes msg).
  intros hashed.
  destruct (has_data_length msg) eqn:Hlen; cbn [andb].
  - destruct (Hdecl eq_refl) as (Hc & Hpos & Hle & Hmax).
    destruct (Z.gtb_spec (data_length msg) (size (data_initial_chunk msg)))
      as [Hgt|Hngt].
    + assert (Hu : u32 (data_length msg - size (data_initial_chunk msg))
                   = data_length msg - size (data_initial_chunk msg))
        by (unfold u32; apply Z.mod_small; lia).
      rewrite Hu.
      rewrite send_request_chunk_run. cbv zeta. cbn [fst].
      match goal with
      | |- signed_over _ _ _ _ (exec _ ?s2) =>
          pose proof (feed_chunks_final chunks s2) as H2
      end.
      cbn [signing data_left privkey keccak_ctx set_resp set_data_left
           set_privkey set_data_total absorb set_keccak_ctx app] in H2.
      apply H2; [reflexivity|lia|lia|assumption|lia].
    + assert (chunks = []) by (apply chunks_total_zero; [assumption|lia]).
      subst chunks. cbn [feed_chunks fold_right chunks_payload flat_map].
      unfold exec, skip. cbn [fst]. rewrite app_nil_r.
      match goal with
      | |- signed_over _ _ _ _ (fst (send_signature _ _ ?s1)) =>
          pose proof (send_signature_final s1 eq_refl) as H1
      end.
      cbn [privkey keccak_ctx set_privkey absorb set_keccak_ctx
           set_data_total set_resp set_signing app] in H1.
      exact H1.
  - assert (chunks = []) by (apply chunks_total_zero; assumption).
    subst chunks. cbn [feed_chunks fold_right chunks_payload flat_map].
    unfold exec, skip. cbn [fst]. rewrite app_nil_r.
    match goal with
    | |- signed_over _ _ _ _ (fst (send_signature _ _ ?s1)) =>
        pose proof (send_signature_final s1 eq_refl) as H1
    end.
    cbn [privkey keccak_ctx set_privkey absorb set_keccak_ctx
         set_data_total set_resp set_signing app] in H1.
    exact H1.
Qed.

(** X7. A whole signing operation: a confirmed descriptor followed by the
    chunks that complete its payload (none when the initial chunk is the
    whole payload or no payload is declared). The digest signed is that of
    the list header, the five fields, the payload field as stage 2 hashes it
    (header for the declared length and initial chunk, or [0x80]) and the
    further chunks in order; the operation ends inactive with the key
    buffer zeroed; and when the signature primitive succeeds on the first
    32 bytes of the node's private key and that digest, [sig] holds what it
    wrote and the staged response carries that signature. *)
Theorem streamed_transaction_digest
    (s : state) (msg : EthereumSignTx) (node : HDNode)
    (chunks : list EthereumTxAck)
    (Hacc : accepted s (SignTx msg node true))
    (Hchunks : Forall chunk_ok chunks)
    (Htotal : chunks_total chunks = remaining_after s (SignTx msg node true)) :
  signed_over keccak_256 ecdsa_sign_digest (array_of 32 (private_key node))
    (header_fields_bytes msg ++ data_field_bytes msg ++ chunks_payload chunks)
    (exec (seq (init msg node true)
             (feed_chunks keccak_256 ecdsa_sign_digest chunks)) s).
Proof.
  exact (init_then_chunks_final s msg node chunks Hacc Hchunks Htotal).
Qed.

(** ** The list header against the bytes that follow it *)

Lemma to_int_small x : 0 <= x -> x < 2 ^ 31 -> to_int x = x.
Proof.
  intros H0 H1. unfold to_int.
  replace (x <? 2 ^ 31) with true by (symmetry; lia). reflexivity.
Qed.

Lemma field_bytes_length buf n :
  0 <= n -> n <= 0xFFFFFF -> n <= Z.of_nat (length buf) ->
  Z.of_nat (length (field_bytes buf n))
  = rlp_calculate_length n (first_byte buf).
Proof.
  intros Hlo Hhi Hbuf. unfold field_bytes.
  rewrite length_app, Nat2Z.inj_add, length_header_length by assumption.
  unfold rlp_calculate_length.
  destruct (Z.eqb_spec n 1) as [E1|N1]; cbn [andb].
  - subst n. change (1 >? 1) with false. cbn [orb].
    destruct (Z.leb_spec (first_byte buf) 0x7f) as [Hb|Hb].
    + replace (first_byte buf >=? 128) with false by (symmetry; lia).
      reflexivity.
    + replace (first_byte buf >=? 128) with true by (symmetry; lia).
      rewrite firstn_length_Z by lia. reflexivity.
  - destruct (Z.gtb_spec n 1) as [Hg|Hg]; cbn [orb].
    + rewrite firstn_length_Z by lia.
      repeat match goal with
             | |- context [if ?c then _ else _] => destruct c
             end; lia.
    + assert (n = 0) by lia. subst n.
      destruct (first_byte buf >=? 128); reflexivity.
Qed.

Lemma rlp_calculate_length_bounds n b :
  0 <= n -> 1 <= rlp_calculate_length n b <= n + 4.
Proof.
  intros Hn. unfold rlp_calculate_length.
  repeat match goal with
         | |- context [if ?c then _ else _] => destruct c eqn:?
         end; lia.
Qed.

Lemma optional_field_length has f :
  field_ok f ->
  Z.of_nat (length (optional_field_bytes has f))
  = rlp_term has (size f) (first_byte (bytes f))
  /\ 1 <= rlp_term has (size f) (first_byte (bytes f)) <= 0xFFFFFF + 4.
Proof.
  intros (H0 & Hlen & Hmax). unfold optional_field_bytes, rlp_term.
  destruct has.
  - rewrite to_int_small by lia.
    rewrite field_bytes_length by assumption.
    pose proof (rlp_calculate_length_bounds (size f) (first_byte (bytes f)) H0).
    lia.
  - cbn. lia.
Qed.

Lemma u32_small x : 0 <= x < 2 ^ 32 -> u32 x = x.
Proof. intros H. unfold u32. apply Z.mod_small. exact H. Qed.

Lemma stage1_no_wrap msg :
  fields_ok msg ->
  let d := rlp_term (has_data_length msg && has_data_initial_chunk msg)
             (data_length msg)
             (first_byte (bytes (data_initial_chunk msg))) in
  1 <= d <= 0xFFFFFF + 4 ->
  stage1_rlp_length msg
  = Z.of_nat (length (optional_field_bytes (has_nonce msg) (nonce msg)))
    + Z.of_nat (length (optional_field_bytes (has_gas_price msg) (gas_price msg)))
    + Z.of_nat (length (optional_field_bytes (has_gas_limit msg) (gas_limit msg)))
    + Z.of_nat (length (optional_field_bytes (has_to msg) (to msg)))
    + Z.of_nat (length (optional_field_bytes (has_value msg) (value msg)))
    + d.
Proof.
  intros (H1 & H2 & H3 & H4 & H5) d Hd.
  destruct (optional_field_length (has_nonce msg) _ H1) as [E1 B1].
  destruct (optional_field_length (has_gas_price msg) _ H2) as [E2 B2].
  destruct (optional_field_length (has_gas_limit msg) _ H3) as [E3 B3].
  destruct (optional_field_length (has_to msg) _ H4) as [E4 B4].
  destruct (optional_field_length (has_value msg) _ H5) as [E5 B5].
  rewrite E1, E2, E3, E4, E5. unfold stage1_rlp_length. cbv zeta.
  change 0xFFFFFF with 16777215 in *. fold d.
  generalize dependent d. intros d Hd.
  generalize dependent (rlp_term (has_nonce msg) (size (nonce msg))
                          (first_byte (bytes (nonce msg)))).
  generalize dependent (rlp_term (has_gas_price msg) (size (gas_price msg))
                          (first_byte (bytes (gas_price msg)))).
  generalize dependent (rlp_term (has_gas_limit msg) (size (gas_limit msg))
                          (first_byte (bytes (gas_limit msg)))).
  generalize dependent (rlp_term (has_to msg) (size (to msg))
                          (first_byte (bytes (to msg)))).
  generalize dependent (rlp_term (has_value msg) (size (value msg))
                          (first_byte (bytes (value msg)))).
  intros t5 _ B5 t4 _ B4 t3 _ B3 t2 _ B2 t1 _ B1.
  rewrite (u32_small (0 + t1)) by (change (2 ^ 32) with 4294967296; lia).
  rewrite (u32_small (0 + t1 + t2)) by (change (2 ^ 32) with 4294967296; lia).
  rewrite (u32_small (0 + t1 + t2 + t3))
    by (change (2 ^ 32) with 4294967296; lia).
  rewrite (u32_small (0 + t1 + t2 + t3 + t4))
    by (change (2 ^ 32) with 4294967296; lia).
  rewrite (u32_small (0 + t1 + t2 + t3 + t4 + t5))
    by (change (2 ^ 32) with 4294967296; lia).
  rewrite (u32_small (0 + t1 + t2 + t3 + t4 + t5 + d))
    by (change (2 ^ 32) with 4294967296; lia).
  lia.
Qed.

Lemma header_fields_content msg :
  header_fields_bytes msg
  = list_header (stage1_rlp_length msg)
    ++ (optional_field_bytes (has_nonce msg) (nonce msg)
        ++ optional_field_bytes (has_gas_price msg) (gas_price msg)
        ++ optional_field_bytes (has_gas_limit msg) (gas_limit msg)
        ++ optional_field_bytes (has_to msg) (to msg)
        ++ optional_field_bytes (has_value msg) (value msg)).
Proof. reflexivity. Qed.

Lemma init_confirmed_ctx msg node s :
  passes_checks msg ->
  keccak_ctx (exec (init msg node true) s)
  = header_fields_bytes msg ++ data_field_bytes msg.
Proof.
  intros Hok. unfold exec. rewrite init_confirmed_state by assumption.
  cbv zeta. cbn [fst].
  generalize (header_fields_bytes msg ++ data_field_bytes msg).
  intros hashed.
  destruct (has_data_length msg
            && (data_length msg >? size (data_initial_chunk msg))).
  - rewrite send_request_chunk_run. reflexivity.
  - rewrite send_signature_ctx by reflexivity. reflexivity.
Qed.

(** The content hashed after the list header, and its length, for a
    payload field whose stage 2 bytes number [k]. *)
Lemma init_content_length msg node s k :
  passes_checks msg -> fields_ok msg ->
  (let d := rlp_term (has_data_length msg && has_data_initial_chunk msg)
              (data_length msg)
              (first_byte (bytes (data_initial_chunk msg))) in
   1 <= d <= 0xFFFFFF + 4) ->
  Z.of_nat (length (data_field_bytes msg)) = k ->
  exists content,
    keccak_ctx (exec (init msg node true) s)
    = list_header (stage1_rlp_length msg) ++ content
    /\ Z.of_nat (length content)
       = stage1_rlp_length msg
         - rlp_term (has_data_length msg && has_data_initial_chunk msg)
             (data_length msg)
             (first_byte (bytes (data_initial_chunk msg)))
         + k.
Proof.
  intros Hok Hf Hd Hk.
  rewrite init_confirmed_ctx by assumption.
  rewrite header_fields_content, <- app_assoc.
  eexists. split; [reflexivity|].
  rewrite (stage1_no_wrap msg Hf Hd).
  rewrite !length_app, !Nat2Z.inj_add. lia.
Qed.

Lemma data_field_length msg :
  has_data_length msg = true -> has_data_initial_chunk msg = true ->
  0 < size (data_initial_chunk msg) ->
  size (data_initial_chunk msg) <= data_length msg ->
  data_length msg <= 0xFFFFFF ->
  size (data_initial_chunk msg)
  <= Z.of_nat (length (bytes (data_initial_chunk msg))) ->
  let b := first_byte (bytes (data_initial_chunk msg)) in
  rlp_term (has_data_length msg && has_data_initial_chunk msg)
    (data_length msg) b
  = rlp_calculate_length (data_length msg) b
  /\ Z.of_nat (length (data_field_bytes msg))
     = (if (data_length msg =? 1) && (b <=? 0x7f) then 1 else 0)
       + rlp_calculate_length (data_length msg) b
       - (data_length msg - size (data_initial_chunk msg)).
Proof.
  intros Hlen Hc Hpos Hle Hmax Hbuf b.
  unfold rlp_term, data_field_bytes. rewrite Hlen, Hc. cbn [andb].
  change 0xFFFFFF with 16777215 in *.
  rewrite to_int_small by lia. split; [reflexivity|].
  rewrite length_app, Nat2Z.inj_add, firstn_length_Z by lia.
  rewrite length_header_length by lia. fold b.
  unfold rlp_calculate_length.
  destruct (Z.eqb_spec (data_length msg) 1) as [E1|N1]; cbn [andb].
  - rewrite E1 in *. change (1 <=? 55) with true. cbv iota.
    destruct (b <=? 127); lia.
  - repeat match goal with
           | |- context [if ?c then _ else _] => destruct c
           end; lia.
Qed.

Lemma init_content_announced
    (s : state) (msg : EthereumSignTx) (node : HDNode)
    (Hacc : accepted s (SignTx msg node true))
    (Hfields : fields_ok msg)
    (Hpayload : has_data_length msg = true ->
                data_length msg <= 0xFFFFFF
                /\ size (data_initial_chunk msg)
                   <= Z.of_nat (length (bytes (data_initial_chunk msg)))
                /\ (data_length msg = 1 ->
                    0x80 <= first_byte (bytes (data_initial_chunk msg)))) :
  exists content,
    keccak_ctx (exec (init msg node true) s)
    = list_header (stage1_rlp_length msg) ++ content
    /\ Z.of_nat (length content) + remaining_after s (SignTx msg node true)
       = stage1_rlp_length msg.
Proof.
  pose proof (accepted_passes_checks s msg node Hacc) as Hok.
  destruct Hacc as [_ Hdecl]. cbn [remaining_after].
  destruct (has_data_length msg) eqn:Hlen.
  - destruct (Hdecl eq_refl) as (Hc & Hpos & Hle & _).
    destruct (Hpayload eq_refl) as (Hmax & Hbuf & Hone).
    destruct (data_field_length msg Hlen Hc Hpos Hle Hmax Hbuf) as [Ed Ek].
    cbv zeta in Ed, Ek.
    pose proof (rlp_calculate_length_bounds (data_length msg)
                  (first_byte (bytes (data_initial_chunk msg)))
                  ltac:(lia)) as Hb.
    destruct (init_content_length msg node s _ Hok Hfields
                ltac:(cbv zeta; rewrite Ed; lia) Ek) as (content & Hctx & Hl).
    exists content. split; [exact Hctx|].
    rewrite Hl, Ed.
    replace ((data_length msg =? 1)
             && (first_byte (bytes (data_initial_chunk msg)) <=? 127))
      with false; [lia|].
    symmetry. apply andb_false_iff.
    destruct (Z.eq_dec (data_length msg) 1) as [E1|N1].
    + right. specialize (Hone E1). lia.
    + left. lia.
  - assert (Hd : rlp_term (has_data_length msg && has_data_initial_chunk msg)
                   (data_length msg)
                   (first_byte (bytes (data_initial_chunk msg))) = 1)
      by (rewrite Hlen; reflexivity).
    assert (Hk : Z.of_nat (length (data_field_bytes msg)) = 1)
      by (unfold data_field_bytes; rewrite Hlen; reflexivity).
    destruct (init_content_length msg node s _ Hok Hfields
                ltac:(cbv zeta; rewrite Hd; lia) Hk) as (content & Hctx & Hl).
    exists content. split; [exact Hctx|]. rewrite Hl, Hd. lia.
Qed.

(** X9. For a confirmed descriptor that declares a payload of one byte
    and that byte is at most [0x7f], the list header announces one byte
    less than what is hashed after it: stage 1 counts the payload as 1
    byte, stage 2 hashes the byte chosen by [hash_rlp_length] and then the
    initial chunk as well. *)
Theorem single_small_byte_payload_one_byte_too_many
    (s : state) (msg : EthereumSignTx) (node : HDNode)
    (Hacc : accepted s (SignTx msg node true))
    (Hfields : fields_ok msg)
    (Hlen : has_data_length msg = true)
    (Hone : data_length msg = 1)
    (Hbuf : size (data_initial_chunk msg)
            <= Z.of_nat (length (bytes (data_initial_chunk msg))))
    (Hsmall : first_byte (bytes (data_initial_chunk msg)) <= 0x7f) :
  signing (exec (init msg node true) s) = false
  /\ exists content,
       keccak_ctx (exec (init msg node true) s)
       = list_header (stage1_rlp_length msg) ++ content
       /\ Z.of_nat (length content) = stage1_rlp_length msg + 1.
Proof.
  pose proof (accepted_passes_checks s msg node Hacc) as Hok.
  destruct Hacc as [_ Hdecl].
  destruct (Hdecl Hlen) as (Hc & Hpos & Hle & _).
  split.
  - unfold exec. rewrite init_confirmed_state by assumption. cbv zeta.
    rewrite Hlen. cbn [andb fst].
    replace (data_length msg >? size (data_initial_chunk msg)) with false
      by (symmetry; lia).
    apply send_signature_ends. reflexivity.
  - destruct (data_field_length msg Hlen Hc Hpos Hle ltac:(rewrite Hone; lia) Hbuf)
      as [Ed Ek].
    cbv zeta in Ed, Ek.
    pose proof (rlp_calculate_length_bounds (data_length msg)
                  (first_byte (bytes (data_initial_chunk msg)))
                  ltac:(lia)) as Hb.
    destruct (init_content_length msg node s _ Hok Hfields
                ltac:(cbv zeta; rewrite Ed; lia) Ek) as (content & Hctx & Hl).
    exists content. split; [exact Hctx|].
    rewrite Hl, Ed.
    replace ((data_length msg =? 1)
             && (first_byte (bytes (data_initial_chunk msg)) <=? 127))
      with true; [lia|].
    symmetry. apply andb_true_iff. split; lia.
Qed.

(** ** Reading the headers back *)

Lemma be_value_1 x : be_value [x] = x.
Proof. unfold be_value. cbn [fold_left]. lia. Qed.

Lemma firstn_length_app (a b : list Z) : firstn (length a) (a ++ b) = a.
Proof. induction a as [|x a IH]; cbn; [reflexivity|]. now rewrite IH. Qed.

Lemma skipn_length_app (a b : list Z) : skipn (length a) (a ++ b) = b.
Proof. induction a as [|x a IH]; cbn; [reflexivity|]. exact IH. Qed.

Lemma rlp_take_app (body rest : list Z) (n : Z) :
  Z.of_nat (length body) = n ->
  rlp_take n (body ++ rest) = Some (body, rest).
Proof.
  intros Hn. unfold rlp_take. rewrite length_app, Nat2Z.inj_add.
  replace (Z.of_nat (length body) + Z.of_nat (length rest) <? n) with false
    by (symmetry; apply Z.ltb_ge; lia).
  assert (Hnat : Z.to_nat n = length body) by lia.
  rewrite Hnat, firstn_length_app, skipn_length_app. reflexivity.
Qed.

Lemma rlp_read_length_big_endian (n : nat) (L : Z) (rest : list Z) :
  0 <= L < 256 ^ Z.of_nat n ->
  rlp_read_length n (big_endian n L ++ rest) = Some (L, rest).
Proof.
  intros HL. unfold rlp_read_length.
  pose proof (big_endian_quantity n L) as Hlen.
  rewrite length_app, Hlen.
  replace (n + length rest <? n)%nat with false
    by (symmetry; apply Nat.ltb_ge; lia).
  pose proof (firstn_length_app (big_endian n L) rest) as Hf.
  pose proof (skipn_length_app (big_endian n L) rest) as Hs.
  rewrite Hlen in Hf, Hs. rewrite Hf, Hs.
  rewrite big_endian_value by assumption. reflexivity.
Qed.

Lemma list_header_read (L : Z) (rest : list Z) :
  0 <= L -> L <= 0xFFFFFF ->
  rlp_read_list_header (list_header L ++ rest) = Some (L, rest).
Proof.
  intros Hlo Hhi.
  change 0xFFFFFF with 16777215 in Hhi.
  unfold list_header.
  destruct (Z.leb_spec L 55).
  - unfold u8. rewrite Z.mod_small by lia.
    cbn [app rlp_read_list_header].
    replace (192 <=? 192 + L) with true by (symmetry; lia).
    replace (192 + L <=? 247) with true by (symmetry; lia).
    cbn [andb]. do 2 f_equal. lia.
  - destruct (Z.leb_spec L 0xff).
    + unfold u8. rewrite Z.mod_small by (change 0xff with 255 in *; lia).
      change ([0xf8; L] ++ rest) with (0xf8 :: big_endian 0 0 ++ [L] ++ rest).
      cbn [rlp_read_list_header big_endian app].
      change (192 <=? 248) with true. change (248 <=? 247) with false.
      change (248 <=? 248) with true. change (248 <=? 255) with true.
      cbn [andb]. change (Z.to_nat (248 - 247)) with 1%nat.
      unfold rlp_read_length. cbn [length Nat.ltb Nat.leb firstn skipn].
      rewrite be_value_1. reflexivity.
    + destruct (Z.leb_spec L 0xffff).
      * rewrite <- big_endian_2.
        change ((0xf9 :: big_endian 2 L) ++ rest)
          with (0xf9 :: (big_endian 2 L ++ rest)).
        cbn [rlp_read_list_header].
        change (192 <=? 249) with true. change (249 <=? 247) with false.
        change (248 <=? 249) with true. change (249 <=? 255) with true.
        cbn [andb]. change (Z.to_nat (249 - 247)) with 2%nat.
        apply rlp_read_length_big_endian.
        change 0xffff with 65535 in *. change (256 ^ Z.of_nat 2) with 65536.
        lia.
      * rewrite <- big_endian_3.
        change ((0xfa :: big_endian 3 L) ++ rest)
          with (0xfa :: (big_endian 3 L ++ rest)).
        cbn [rlp_read_list_header].
        change (192 <=? 250) with true. change (250 <=? 247) with false.
        change (248 <=? 250) with true. change (250 <=? 255) with true.
        cbn [andb]. change (Z.to_nat (250 - 247)) with 3%nat.
        apply rlp_read_length_big_endian.
        change (256 ^ Z.of_nat 3) with 16777216. lia.
Qed.



(** X10. For every length [L] from 0 to [0xFFFFFF] the list header
    hashed by [hash_rlp_list_length] reads back as [L]: an RLP reader finds
    the length [L] and, after the header, exactly what was hashed next. *)
Theorem list_header_reads_back
    (s : state) (L : Z) (rest : list Z)
    (Hlo : 0 <= L) (Hhi : L <= 0xFFFFFF) :
  exists header,
    hash_rlp_list_length L s = (absorb header s, [])
    /\ rlp_read_list_header (header ++ rest) = Some (L, rest).
Proof.
  exists (list_header L). split; [apply hash_rlp_list_length_run|].
  apply list_header_read; assumption.
Qed.

(** A header of [hash_rlp_length] other than the one-byte forms, followed
    by a body of the announced length, reads back as that body. *)
Lemma header_and_body_read (L b : Z) (body rest : list Z) :
  1 <= L -> L <= 0xFFFFFF -> (L = 1 -> 0x80 <= b) ->
  Z.of_nat (length body) = L ->
  rlp_read_string (length_header L b ++ body ++ rest) = Some (body, rest).
Proof.
  intros Hlo Hhi Hone Hlen. change 0xFFFFFF with 16777215 in Hhi.
  assert (Hh : length_header L b = spec_header L).
  { destruct (Z.eq_dec L 1) as [E1|N1].
    - specialize (Hone E1). rewrite E1. unfold length_header, spec_header.
      change (1 =? 1) with true. cbn [andb].
      replace (b =? 0) with false by (symmetry; lia).
      replace (b <=? 127) with false by (symmetry; lia).
      reflexivity.
    - apply length_header_tiers; lia. }
  rewrite Hh. unfold spec_header. clear Hh Hone.
  rename L into size_.
  destruct (Z.leb_spec size_ 55).
  - cbn [app rlp_read_string].
    replace (0 <=? 128 + size_) with true by (symmetry; lia).
    replace (128 + size_ <=? 127) with false by (symmetry; lia).
    replace (128 <=? 128 + size_) with true by (symmetry; lia).
    replace (128 + size_ <=? 183) with true by (symmetry; lia).
    cbn [andb]. replace (128 + size_ - 128) with size_ by lia.
    apply rlp_take_app. exact Hlen.
  - destruct (Z.leb_spec size_ 255).
    + change ([184; size_] ++ body ++ rest)
        with (184 :: (big_endian 0 0 ++ [size_]) ++ body ++ rest).
      cbn [rlp_read_string big_endian app].
      change (0 <=? 184) with true. change (184 <=? 127) with false.
      change (128 <=? 184) with true. change (184 <=? 183) with false.
      change (184 <=? 191) with true.
      cbn [andb]. change (Z.to_nat (184 - 183)) with 1%nat.
      unfold rlp_read_length. cbn [length Nat.ltb Nat.leb firstn skipn].
      rewrite be_value_1. apply rlp_take_app. exact Hlen.
    + destruct (Z.leb_spec size_ 65535).
      * change ((185 :: big_endian 2 size_) ++ body ++ rest)
          with (185 :: (big_endian 2 size_ ++ body ++ rest)).
        cbn [rlp_read_string].
        change (0 <=? 185) with true. change (185 <=? 127) with false.
        change (128 <=? 185) with true. change (185 <=? 183) with false.
        change (184 <=? 185) with true. change (185 <=? 191) with true.
        cbn [andb]. change (Z.to_nat (185 - 183)) with 2%nat.
        rewrite rlp_read_length_big_endian
          by (change (256 ^ Z.of_nat 2) with 65536; lia).
        apply rlp_take_app. exact Hlen.
      * change ((186 :: big_endian 3 size_) ++ body ++ rest)
          with (186 :: (big_endian 3 size_ ++ body ++ rest)).
        cbn [rlp_read_string].
        change (0 <=? 186) with true. change (186 <=? 127) with false.
        change (128 <=? 186) with true. change (186 <=? 183) with false.
        change (184 <=? 186) with true. change (186 <=? 191) with true.
        cbn [andb]. change (Z.to_nat (186 - 183)) with 3%nat.
        rewrite rlp_read_length_big_endian
          by (change (256 ^ Z.of_nat 3) with 16777216; lia).
        apply rlp_take_app. exact Hlen.
Qed.


Lemma field_bytes_read (buf : list Z) (size_ : Z) (rest : list Z) :
  1 <= size_ -> size_ <= 0xFFFFFF -> size_ <= Z.of_nat (length buf) ->
  0 <= first_byte buf -> (size_ = 1 -> first_byte buf <> 0) ->
  rlp_read_string (field_bytes buf size_ ++ rest)
  = Some (firstn (Z.to_nat size_) buf, rest).
Proof.
  intros Hlo Hhi Hbuf Hbyte Hnonzero.
  pose proof (firstn_length_Z buf size_ ltac:(lia) Hbuf) as Hlen.
  unfold field_bytes.
  destruct (Z.eqb_spec size_ 1) as [E1|N1].
  - subst size_. specialize (Hnonzero eq_refl).
    change (1 >? 1) with false. cbn [orb].
    destruct (Z.leb_spec (first_byte buf) 127) as [Hb|Hb].
    + replace (first_byte buf >=? 128) with false by (symmetry; lia).
      rewrite firstn_one_first_byte by lia.
      unfold length_header. change (1 =? 1) with true. cbn [andb].
      replace (first_byte buf =? 0) with false by (symmetry; lia).
      replace (first_byte buf <=? 127) with true by (symmetry; lia).
      cbn [app rlp_read_string].
      replace (0 <=? first_byte buf) with true by (symmetry; lia).
      replace (first_byte buf <=? 127) with true by (symmetry; lia).
      reflexivity.
    + replace (first_byte buf >=? 128) with true by (symmetry; lia).
      rewrite <- app_assoc.
      apply header_and_body_read; lia || exact Hlen.
  - replace (size_ >? 1) with true by (symmetry; lia). cbn [orb].
    rewrite <- app_assoc.
    apply header_and_body_read; lia || exact Hlen.
Qed.

(** X11. A field of 1 to [0xFFFFFF] bytes, other than the single byte
    [0x00], is hashed by [hash_rlp_field] in a form an RLP reader decodes
    to the very bytes of the field, followed by whatever was hashed next;
    so two such fields with different bytes never hash alike. *)
Theorem field_encoding_reads_back
    (s : state) (buf : list Z) (size_ : Z) (rest : list Z)
    (Hlo : 1 <= size_) (Hhi : size_ <= 0xFFFFFF)
    (Hbuf : size_ <= Z.of_nat (length buf))
    (Hbyte : 0 <= first_byte buf)
    (Hnonzero : size_ = 1 -> first_byte buf <> 0) :
  exists encoding,
    hash_rlp_field buf size_ s = (absorb encoding s, [])
    /\ rlp_read_string (encoding ++ rest)
       = Some (firstn (Z.to_nat size_) buf, rest).
Proof.
  exists (field_bytes buf size_). split; [apply hash_rlp_field_run|].
  apply field_bytes_read; assumption.
Qed.

(** X12. An absent field, a present field of size 0 and a present field
    holding the single byte [0x00] are all hashed as the one byte [0x80]:
    the digest does not tell them apart. *)
Theorem absent_empty_and_zero_byte_hash_alike
    (s : state) (has : bool) (f : bytes_t)
    (Hcase : has = false \/ size f = 0
             \/ (size f = 1 /\ first_byte (bytes f) = 0)) :
  hash_optional_field has f s = (absorb [0x80] s, []).
Proof.
  rewrite hash_optional_field_run. do 2 f_equal.
  unfold optional_field_bytes. destruct has; [|reflexivity].
  destruct Hcase as [H|[H|[H1 H0]]]; [discriminate| |].
  - unfold field_bytes. rewrite H. unfold length_header.
    change (0 =? 1) with false. change (0 <=? 55) with true.
    change (0 >? 1) with false. cbn [andb orb].
    change (Z.to_nat 0) with 0%nat. cbn [firstn].
    destruct (first_byte (bytes f) >=? 128); reflexivity.
  - unfold field_bytes. rewrite H1, H0. reflexivity.
Qed.

(** ** The progress shown while chunks arrive *)

(** X13. When [send_request_chunk] runs with [0 < data_left <= data_total]
    and [800 * data_left] below [2^32], the progress it shows is
    [1000 - 800 * data_left / data_total] without wrap-around, a value from
    200 to 1000 that does not decrease when [data_left] decreases. *)
Theorem chunk_progress_within_bounds
    (s : state)
    (Hleft : 0 < data_left s) (Hle : data_left s <= data_total s)
    (Hmul : 800 * data_left s < 2 ^ 32) :
  (exists r,
     send_request_chunk s
     = (set_resp r s,
        [layoutProgress "Signing"
           (1000 - 800 * data_left s / data_total s);
         msg_write r]))
  /\ 200 <= 1000 - 800 * data_left s / data_total s <= 1000
  /\ forall left', 0 < left' <= data_left s ->
       1000 - 800 * data_left s / data_total s
       <= 1000 - 800 * left' / data_total s.
Proof.
  assert (Hq : 0 <= 800 * data_left s / data_total s <= 800).
  { split.
    - apply Z.div_pos; lia.
    - apply Z.div_le_upper_bound; lia. }
  split; [|split].
  - eexists. rewrite send_request_chunk_run. cbv zeta.
    rewrite (u32_small (800 * data_left s)) by lia.
    rewrite u32_small by (change (2 ^ 32) with 4294967296; lia).
    rewrite to_int_small by (change (2 ^ 31) with 2147483648; lia).
    reflexivity.
  - lia.
  - intros left' Hl.
    assert (800 * left' / data_total s <= 800 * data_left s / data_total s)
      by (apply Z.div_le_mono; lia).
    lia.
Qed.

(** ** The shape of the messages written *)

Lemma send_signature_sent_shape s1 r :
  signing s1 = true -> In r (sent (snd (sign s1))) -> signature_shape r.
Proof.
  intros Hs. destruct (Z.eq_dec (ecdsa_ret (signed_ s1)) 0) as [E|N].
  - rewrite send_signature_success by assumption. cbn [snd sent In].
    intros [<-|[]]. unfold signature_shape, signature_response.
    repeat split.
  - rewrite send_signature_failure by assumption. cbn [snd sent In].
    intros [].
Qed.

Lemma init_resp_unsigned msg node button s :
  signing (exec (init msg node button) s) = true ->
  no_signature_fields (resp (exec (init msg node button) s)).
Proof.
  unfold exec. rewrite init_entry. cbv zeta.
  assert (Hrest : forall s0,
    signing s0 = true -> resp s0 = zero_EthereumTxRequest ->
    signing (fst (init_confirm_and_hash keccak_256 ecdsa_sign_digest
                    msg node button s0)) = true ->
    no_signature_fields
      (resp (fst (init_confirm_and_hash keccak_256 ecdsa_sign_digest
                    msg node button s0)))).
  { intros s0 Hs0 Hr0. destruct button.
    - rewrite init_confirm_and_hash_confirmed. cbv zeta. cbn [fst].
      destruct (has_data_length msg
                && (data_length msg >? size (data_initial_chunk msg))).
      + rewrite send_request_chunk_run. cbv zeta.
        cbn [fst resp set_resp set_data_left set_privkey absorb
             set_keccak_ctx]. rewrite Hr0. intros _. repeat split.
      + match goal with
        | |- context [send_signature _ _ ?s1] =>
            destruct (send_signature_ends s1)
              as [Hf _]; [exact Hs0|]
        end.
        unfold exec in Hf. rewrite Hf. discriminate.
    - rewrite init_confirm_and_hash_cancelled by assumption.
      cbn [fst signing set_signing]. discriminate. }
  destruct (has_data_length msg).
  - destruct (data_length msg =? 0); [cbn; discriminate|].
    destruct (negb (has_data_initial_chunk msg)
              || (size (data_initial_chunk msg) =? 0)); [cbn; discriminate|].
    destruct (size (data_initial_chunk msg) >? data_length msg);
      [cbn; discriminate|].
    apply Hrest; reflexivity.
  - apply Hrest; reflexivity.
Qed.

Lemma txack_resp_unsigned tx s :
  (signing s = true -> no_signature_fields (resp s)) ->
  signing (exec (txack tx) s) = true ->
  no_signature_fields (resp (exec (txack tx) s)).
Proof.
  intros Hinv. unfold exec. destruct (signing s) eqn:Hs.
  - destruct ((data_left s >? 0)
              && (negb (has_data_chunk tx) || (size (data_chunk tx) =? 0)))
      eqn:Hc.
    + rewrite txack_empty_chunk_run by assumption. cbn. discriminate.
    + rewrite txack_accepted_run by assumption. cbv zeta.
      match goal with |- context [if ?c then _ else _] => destruct c end.
      * rewrite send_request_chunk_run. cbv zeta.
        cbn [fst resp set_resp set_data_left absorb set_keccak_ctx].
        intros _. destruct (Hinv eq_refl) as (Hv & Hr & Hsg).
        repeat split; assumption.
      * match goal with
        | |- context [send_signature _ _ ?s1] =>
            destruct (send_signature_ends s1)
              as [Hf _]; [exact Hs|]
        end.
        unfold exec in Hf. rewrite Hf. discriminate.
  - unfold ethereum_signing_txack, reading. rewrite Hs.
    cbn [negb fst call seq]. rewrite Hs. discriminate.
Qed.

Lemma reachable_resp_unsigned s :
  reach s -> signing s = true -> no_signature_fields (resp s).
Proof.
  induction 1 as [|s q Hreach IH].
  - discriminate.
  - destruct q as [msg node button|tx|]; cbn [serve].
    + apply init_resp_unsigned.
    + apply txack_resp_unsigned. exact IH.
    + intros Hs. exfalso.
      unfold exec in Hs. destruct (signing s) eqn:Hs0.
      * rewrite abort_active in Hs by assumption. discriminate.
      * rewrite abort_idle in Hs by assumption. cbn [fst] in Hs. congruence.
Qed.

(** X14. In every state the device can reach, each message a call writes
    to the transport has one of two shapes: a chunk request, with
    [data_length] and none of the three signature fields, or a signature,
    with the three signature fields and no [data_length]. A request made
    during a later operation never carries signature fields left from an
    earlier one. *)
Theorem messages_are_requests_or_signatures
    (s : state) (q : request) (r : EthereumTxRequest)
    (Hreach : reach s)
    (Hsent : In r (sent (trace (serving q) s))) :
  chunk_request_shape r \/ signature_shape r.
Proof.
  pose proof (reachable_resp_unsigned s Hreach) as Hinv.
  revert Hsent. unfold trace.
  destruct q as [msg node button|tx|]; cbn [serve].
  - rewrite init_entry. cbv zeta.
    assert (Hrest : forall s0,
      signing s0 = true -> resp s0 = zero_EthereumTxRequest ->
      In r (sent (snd (init_confirm_and_hash keccak_256 ecdsa_sign_digest
                         msg node button s0))) ->
      chunk_request_shape r \/ signature_shape r).
    { intros s0 Hs0 Hr0. destruct button.
      - rewrite init_confirm_and_hash_confirmed. cbv zeta. cbn [snd].
        rewrite sent_app. cbn [confirmed_calls sent app].
        destruct (has_data_length msg
                  && (data_length msg >? size (data_initial_chunk msg))).
        + rewrite send_request_chunk_run. cbv zeta.
          cbn [snd sent In resp set_resp set_data_left set_privkey absorb
               set_keccak_ctx].
          rewrite Hr0. intros [<-|[]]. left. repeat split.
        + intros Hin. right.
          apply (send_signature_sent_shape _ r) in Hin; [exact Hin|exact Hs0].
      - rewrite init_confirm_and_hash_cancelled by assumption.
        cbn [snd sent In]. intros []. }
    destruct (has_data_length msg).
    + destruct (data_length msg =? 0); [cbn; intros []|].
      destruct (negb (has_data_initial_chunk msg)
                || (size (data_initial_chunk msg) =? 0)); [cbn; intros []|].
      destruct (size (data_initial_chunk msg) >? data_length msg);
        [cbn; intros []|].
      apply Hrest; reflexivity.
    + apply Hrest; reflexivity.
  - destruct (signing s) eqn:Hs.
    + destruct ((data_left s >? 0)
                && (negb (has_data_chunk tx) || (size (data_chunk tx) =? 0)))
        eqn:Hc.
      * rewrite txack_empty_chunk_run by assumption. cbn. intros [].
      * rewrite txack_accepted_run by assumption. cbv zeta.
        match goal with |- context [if ?c then _ else _] => destruct c end.
        -- rewrite send_request_chunk_run. cbv zeta.
           cbn [snd sent In resp set_resp set_data_left absorb
                set_keccak_ctx].
           intros [<-|[]]. left.
           destruct (Hinv eq_refl) as (Hv & Hr & Hsg).
           repeat split; assumption.
        -- intros Hin. right.
           apply (send_signature_sent_shape _ r) in Hin; [exact Hin|exact Hs].
    + unfold ethereum_signing_txack, reading. rewrite Hs. cbn. intros [].
  - destruct (signing s) eqn:Hs.
    + rewrite abort_active by assumption. cbn. intros [].
    + rewrite abort_idle by assumption. cbn. intros [].
Qed.

(** ** The divisor of the progress computation *)

Lemma init_total_nonzero msg node button s :
  signing (exec (init msg node button) s) = true ->
  data_total (exec (init msg node button) s) <> 0.
Proof.
  unfold exec. rewrite init_entry. cbv zeta.
  assert (Hrest : forall s0,
    signing s0 = true ->
    (has_data_length msg = true -> data_total s0 <> 0) ->
    signing (fst (init_confirm_and_hash keccak_256 ecdsa_sign_digest
                    msg node button s0)) = true ->
    data_total (fst (init_confirm_and_hash keccak_256 ecdsa_sign_digest
                       msg node button s0)) <> 0).
  { intros s0 Hs0 Ht0. destruct button.
    - rewrite init_confirm_and_hash_confirmed. cbv zeta. cbn [fst].
      destruct (has_data_length msg) eqn:Hlen; cbn [andb].
      + destruct (data_length msg >? size (data_initial_chunk msg)).
        * rewrite send_request_chunk_run. cbv zeta.
          cbn [fst data_total set_resp set_data_left set_privkey absorb
               set_keccak_ctx]. intros _. apply Ht0. reflexivity.
        * match goal with
          | |- context [send_signature _ _ ?s1] =>
              destruct (send_signature_ends s1)
                as [Hf _]; [exact Hs0|]
          end.
          unfold exec in Hf. rewrite Hf. discriminate.
      + match goal with
        | |- context [send_signature _ _ ?s1] =>
            destruct (send_signature_ends s1)
              as [Hf _]; [exact Hs0|]
        end.
        unfold exec in Hf. rewrite Hf. discriminate.
    - rewrite init_confirm_and_hash_cancelled by assumption.
      cbn [fst signing set_signing]. discriminate. }
  destruct (has_data_length msg).
  - destruct (Z.eqb_spec (data_length msg) 0); [cbn; discriminate|].
    destruct (negb (has_data_initial_chunk msg)
              || (size (data_initial_chunk msg) =? 0)); [cbn; discriminate|].
    destruct (size (data_initial_chunk msg) >? data_length msg);
      [cbn; discriminate|].
    apply Hrest; [reflexivity|]. intros _. cbn. assumption.
  - apply Hrest; [reflexivity|]. discriminate.
Qed.

Lemma txack_total_nonzero tx s :
  (signing s = true -> data_total s <> 0) ->
  signing (exec (txack tx) s) = true ->
  data_total (exec (txack tx) s) <> 0.
Proof.
  intros Hinv. unfold exec. destruct (signing s) eqn:Hs.
  - destruct ((data_left s >? 0)
              && (negb (has_data_chunk tx) || (size (data_chunk tx) =? 0)))
      eqn:Hc.
    + rewrite txack_empty_chunk_run by assumption. cbn. discriminate.
    + rewrite txack_accepted_run by assumption. cbv zeta.
      match goal with |- context [if ?c then _ else _] => destruct c end.
      * rewrite send_request_chunk_run. cbv zeta.
        cbn [fst data_total set_resp set_data_left absorb set_keccak_ctx].
        intros _. apply Hinv. reflexivity.
      * match goal with
        | |- context [send_signature _ _ ?s1] =>
            destruct (send_signature_ends s1)
              as [Hf _]; [exact Hs|]
        end.
        unfold exec in Hf. rewrite Hf. discriminate.
  - unfold ethereum_signing_txack, reading. rewrite Hs.
    cbn [negb fst call seq]. rewrite Hs. discriminate.
Qed.

(** X15. In every state the device can reach, an active session has
    [data_total] different from 0. [send_request_chunk], which divides by
    [data_total] and leaves the session active, therefore never divides by
    zero, neither when [ethereum_signing_init] calls it nor in any later
    [ethereum_signing_txack]. *)
Theorem active_session_total_nonzero
    (s : state) (Hreach : reach s) (Hactive : signing s = true) :
  data_total s <> 0.
Proof.
  revert Hactive. induction Hreach as [|s q Hreach IH].
  - discriminate.
  - destruct q as [msg node button|tx|]; cbn [serve].
    + apply init_total_nonzero.
    + apply txack_total_nonzero. exact IH.
    + intros Hs. exfalso.
      unfold exec in Hs. destruct (signing s) eqn:Hs0.
      * rewrite abort_active in Hs by assumption. discriminate.
      * rewrite abort_idle in Hs by assumption. cbn [fst] in Hs. congruence.
Qed.

(** ** The signed bytes read back as the transaction *)

Lemma chunks_payload_length chunks :
  Forall chunk_ok chunks ->
  Z.of_nat (length (chunks_payload chunks)) = chunks_total chunks.
Proof.
  induction 1 as [|tx rest Htx _ IH];
    cbn [chunks_payload flat_map chunks_total fold_right length];
    [reflexivity|].
  fold (chunks_payload rest). fold (chunks_total rest).
  destruct Htx as (_ & Hpos & Hlen).
  rewrite length_app, Nat2Z.inj_add, IH. unfold payload_of.
  rewrite firstn_length_Z by lia. reflexivity.
Qed.

Lemma rlp_read_empty (rest : list Z) :
  rlp_read_string (0x80 :: rest) = Some ([], rest).
Proof.
  cbn [rlp_read_string].
  change (0 <=? 128) with true. change (128 <=? 127) with false.
  change (128 <=? 128) with true. change (128 <=? 183) with true.
  cbn [andb]. change (128 - 128) with 0.
  apply (rlp_take_app [] rest 0). reflexivity.
Qed.

Lemma read_optional_field has f rest :
  field_ok f -> 0 <= first_byte (bytes f) ->
  rlp_read_string (optional_field_bytes has f ++ rest)
  = Some (field_value has f, rest).
Proof.
  intros (H0 & Hlen & Hmax) Hb. unfold optional_field_bytes, field_value.
  destruct has; cbn [andb]; [|apply rlp_read_empty].
  destruct (Z.eq_dec (size f) 0) as [E0|N0].
  - rewrite E0. change (0 =? 1) with false. cbn [andb negb].
    unfold payload_of, field_bytes. rewrite E0.
    unfold length_header.
    change (0 =? 1) with false. change (0 <=? 55) with true.
    change (0 >? 1) with false. cbn [andb orb].
    change (Z.to_nat 0) with 0%nat. cbn [firstn].
    change (u8 (128 + 0)) with 128.
    destruct (first_byte (bytes f) >=? 128); cbn [app];
      apply rlp_read_empty.
  - destruct ((size f =? 1) && (first_byte (bytes f) =? 0)) eqn:Hz;
      cbn [negb].
    + apply andb_prop in Hz. destruct Hz as [H1 Hz].
      apply Z.eqb_eq in H1. apply Z.eqb_eq in Hz.
      unfold field_bytes. rewrite H1, Hz. apply rlp_read_empty.
    + apply field_bytes_read; lia.
Qed.

Lemma stage1_nonneg msg : 0 <= stage1_rlp_length msg.
Proof.
  unfold stage1_rlp_length. cbv zeta. unfold u32 at 1.
  apply Z.mod_pos_bound. reflexivity.
Qed.

(** X16. A whole operation on a sound descriptor: every field at most
    [0xFFFFFF] bytes with a first byte that is not negative, the payload,
    if declared, not a single byte below [0x80], the list content at most
    [0xFFFFFF] bytes, the user confirming, and the chunks completing the
    payload. The bytes whose digest is signed read back as one RLP list of
    six strings with nothing left over: the five fields and the complete
    payload in order, where an absent field and the single byte [0x00]
    read as the empty string. *)
Theorem signed_bytes_read_back_as_transaction
    (s : state) (msg : EthereumSignTx) (node : HDNode)
    (chunks : list EthereumTxAck)
    (Hacc : accepted s (SignTx msg node true))
    (Hfields : fields_ok msg) (Hbytes : first_bytes_ok msg)
    (Hpayload : has_data_length msg = true ->
                data_length msg <= 0xFFFFFF
                /\ size (data_initial_chunk msg)
                   <= Z.of_nat (length (bytes (data_initial_chunk msg)))
                /\ (data_length msg = 1 ->
                    0x80 <= first_byte (bytes (data_initial_chunk msg))))
    (Hlist : stage1_rlp_length msg <= 0xFFFFFF)
    (Hchunks : Forall chunk_ok chunks)
    (Htotal : chunks_total chunks = remaining_after s (SignTx msg node true)) :
  rlp_read_list 6
    (keccak_ctx
       (exec (seq (init msg node true)
                (feed_chunks keccak_256 ecdsa_sign_digest chunks)) s))
  = Some [field_value (has_nonce msg) (nonce msg);
          field_value (has_gas_price msg) (gas_price msg);
          field_value (has_gas_limit msg) (gas_limit msg);
          field_value (has_to msg) (to msg);
          field_value (has_value msg) (value msg);
          if has_data_length msg
          then payload_of (data_initial_chunk msg) ++ chunks_payload chunks
          else []].
Proof.
  destruct (init_then_chunks_final s msg node chunks Hacc Hchunks Htotal)
    as (Hctx & _).
  rewrite Hctx. clear Hctx.
  pose proof (accepted_passes_checks s msg node Hacc) as Hok.
  pose proof (chunks_payload_length chunks Hchunks) as Hcl.
  pose proof (chunks_total_nonneg chunks Hchunks) as Hnn.
  destruct Hacc as [_ Hdecl]. cbn [remaining_after] in Htotal.
  destruct Hfields as (F1 & F2 & F3 & F4 & F5).
  destruct Hbytes as (B1 & B2 & B3 & B4 & B5).
  (* the payload field and the chunks, as one string item *)
  assert (Hdata :
    rlp_read_string (data_field_bytes msg ++ chunks_payload chunks)
    = Some (if has_data_length msg
            then payload_of (data_initial_chunk msg) ++ chunks_payload chunks
            else [], [])
    /\ Z.of_nat (length (data_field_bytes msg ++ chunks_payload chunks))
       = rlp_term (has_data_length msg && has_data_initial_chunk msg)
           (data_length msg)
           (first_byte (bytes (data_initial_chunk msg)))
    /\ 1 <= rlp_term (has_data_length msg && has_data_initial_chunk msg)
              (data_length msg)
              (first_byte (bytes (data_initial_chunk msg)))
         <= 0xFFFFFF + 4).
  { destruct (has_data_length msg) eqn:Hlen.
    - destruct (Hdecl eq_refl) as (Hc & Hpos & Hle & _).
      destruct (Hpayload eq_refl) as (Hmax & Hbuf & Hone).
      destruct (data_field_length msg Hlen Hc Hpos Hle Hmax Hbuf) as [Ed Ek].
      cbv zeta in Ed, Ek. rewrite Hlen in Ed.
      pose proof (rlp_calculate_length_bounds (data_length msg)
                    (first_byte (bytes (data_initial_chunk msg)))
                    ltac:(lia)) as Hb.
      assert (Hsmall : (data_length msg =? 1)
                       && (first_byte (bytes (data_initial_chunk msg)) <=? 127)
                       = false).
      { apply andb_false_iff.
        destruct (Z.eq_dec (data_length msg) 1) as [E1|N1].
        - right. specialize (Hone E1). lia.
        - left. lia. }
      rewrite Hsmall in Ek.
      split; [|split].
      + unfold data_field_bytes. rewrite Hlen, Hc. cbn [andb].
        fold (payload_of (data_initial_chunk msg)).
        rewrite <- app_assoc.
        rewrite <- (app_nil_r (payload_of (data_initial_chunk msg)
                               ++ chunks_payload chunks)) at 1.
        apply header_and_body_read; try lia.
        rewrite length_app, Nat2Z.inj_add, Hcl. unfold payload_of.
        rewrite firstn_length_Z by lia. lia.
      + rewrite length_app, Nat2Z.inj_add, Hcl, Ek, Ed. lia.
      + rewrite Ed. change 0xFFFFFF with 16777215 in *. lia.
    - assert (chunks = []) by (apply chunks_total_zero; assumption).
      subst chunks. unfold data_field_bytes. rewrite Hlen. cbn [andb app].
      split; [apply rlp_read_empty|]. split; [reflexivity|].
      unfold rlp_term. lia. }
  destruct Hdata as (Hread & Hdl & Hdb).
  rewrite header_fields_content. rewrite <- !app_assoc.
  unfold rlp_read_list.
  rewrite list_header_read by (apply stage1_nonneg || assumption).
  assert (Hlen_content :
    stage1_rlp_length msg
    = Z.of_nat
        (length
           (optional_field_bytes (has_nonce msg) (nonce msg)
            ++ optional_field_bytes (has_gas_price msg) (gas_price msg)
            ++ optional_field_bytes (has_gas_limit msg) (gas_limit msg)
            ++ optional_field_bytes (has_to msg) (to msg)
            ++ optional_field_bytes (has_value msg) (value msg)
            ++ data_field_bytes msg ++ chunks_payload chunks))).
  { rewrite (stage1_no_wrap msg (conj F1 (conj F2 (conj F3 (conj F4 F5)))) Hdb).
    rewrite !length_app, !Nat2Z.inj_add.
    rewrite length_app, Nat2Z.inj_add in Hdl. lia. }
  rewrite <- Hlen_content, Z.eqb_refl.
  cbn [rlp_read_strings].
  rewrite !read_optional_field by assumption.
  rewrite Hread. reflexivity.
Qed.

(** ** The key buffer at the end of every call *)

Lemma init_confirm_and_hash_outcome msg node button s0 :
  signing s0 = true ->
  (signing (fst (init_confirm_and_hash keccak_256 ecdsa_sign_digest
                   msg node button s0)) = true
   /\ failures (snd (init_confirm_and_hash keccak_256 ecdsa_sign_digest
                       msg node button s0)) = []
   /\ exists r,
        sent (snd (init_confirm_and_hash keccak_256 ecdsa_sign_digest
                     msg node button s0)) = [r]
        /\ req_has_data_length r = true)
  \/ (signing (fst (init_confirm_and_hash keccak_256 ecdsa_sign_digest
                      msg node button s0)) = false
      /\ privkey (fst (init_confirm_and_hash keccak_256 ecdsa_sign_digest
                         msg node button s0)) = repeat 0 32%nat).
Proof.
  intros Hs0. destruct button.
  - rewrite init_confirm_and_hash_confirmed. cbv zeta. cbn [fst snd].
    destruct (has_data_length msg
              && (data_length msg >? size (data_initial_chunk msg))).
    + left. rewrite send_request_chunk_run. cbv zeta.
      cbn [fst snd signing set_resp set_data_left set_privkey absorb
           set_keccak_ctx].
      split; [exact Hs0|]. split.
      * rewrite failures_app. reflexivity.
      * eexists. split; [rewrite sent_app; reflexivity|reflexivity].
    + right. apply send_signature_ends. exact Hs0.
  - right. rewrite init_confirm_and_hash_cancelled by assumption.
    split; reflexivity.
Qed.

Lemma serve_outcome s q :
  (signing s = false -> privkey s = repeat 0 32%nat) ->
  (signing (exec (serving q) s) = true
   /\ failures (trace (serving q) s) = []
   /\ exists r,
        sent (trace (serving q) s) = [r] /\ req_has_data_length r = true)
  \/ (signing (exec (serving q) s) = false
      /\ privkey (exec (serving q) s) = repeat 0 32%nat).
Proof.
  intros Hinv. unfold exec, trace.
  destruct q as [msg node button|tx|]; cbn [serve].
  - rewrite init_entry. cbv zeta.
    destruct (has_data_length msg).
    + destruct (data_length msg =? 0); [right; split; reflexivity|].
      destruct (negb (has_data_initial_chunk msg)
                || (size (data_initial_chunk msg) =? 0));
        [right; split; reflexivity|].
      destruct (size (data_initial_chunk msg) >? data_length msg);
        [right; split; reflexivity|].
      apply init_confirm_and_hash_outcome. reflexivity.
    + apply init_confirm_and_hash_outcome. reflexivity.
  - destruct (signing s) eqn:Hs.
    + destruct ((data_left s >? 0)
                && (negb (has_data_chunk tx) || (size (data_chunk tx) =? 0)))
        eqn:Hc.
      * right. rewrite txack_empty_chunk_run by assumption.
        split; reflexivity.
      * rewrite txack_accepted_run by assumption. cbv zeta.
        match goal with |- context [if ?c then _ else _] => destruct c end.
        -- left. rewrite send_request_chunk_run. cbv zeta.
           cbn [fst snd signing set_resp set_data_left absorb set_keccak_ctx
                failures sent].
           split; [exact Hs|]. split; [reflexivity|].
           eexists. split; reflexivity.
        -- right. apply send_signature_ends. exact Hs.
    + right. unfold ethereum_signing_txack, reading. rewrite Hs.
      cbn [negb fst call seq]. split; [exact Hs|]. apply Hinv. reflexivity.
  - right. apply abort_key. exact Hinv.
Qed.

Lemma complete_payload_ends s q :
  accepted s q -> remaining_after s q = 0 ->
  signing (exec (serving q) s) = false
  /\ privkey (exec (serving q) s) = repeat 0 32%nat.
Proof.
  intros Hacc Hdone. unfold exec.
  destruct q as [msg node button|tx|]; cbn [accepted] in Hacc;
    [| |contradiction].
  - pose proof Hacc as [Hb Hdecl]. subst button.
    cbn [remaining_after] in Hdone. cbn [serve].
    rewrite init_confirmed_state
      by (apply (accepted_passes_checks s msg node); exact Hacc).
    cbv zeta. cbn [fst].
    replace (has_data_length msg
             && (data_length msg >? size (data_initial_chunk msg)))
      with false.
    + apply send_signature_ends. reflexivity.
    + symmetry. destruct (has_data_length msg); [|reflexivity].
      cbn [andb]. lia.
  - destruct Hacc as (Hs & Hc & Hpos & Hle & Hmax).
    cbn [remaining_after] in Hdone. cbn [serve].
    rewrite txack_accepted_run;
      [|assumption| rewrite Hc; cbn [negb orb];
                    replace (size (data_chunk tx) =? 0) with false
                      by (symmetry; lia);
                    apply andb_false_r].
    cbv zeta. cbn [data_left set_data_left].
    rewrite Hdone. change (u32 0 >? 0) with false. cbv iota.
    apply send_signature_ends. exact Hs.
Qed.

(** C1. The 32 bytes of the key buffer are zero whenever no signing
    operation is active, and every call that ends an operation zeroes them
    before it returns. For every state [s] the device can reach and every
    call [q]:
    - if [s] is inactive its key buffer is zero;
    - the call either leaves the session active, and then it reported no
      failure and wrote exactly one message, a chunk request, or it leaves
      the session inactive with the key buffer zero;
    - when the call is accepted and completes the payload, the session ends
      with the key buffer zero, whether the signature primitive succeeds
      (the signature is sent) or fails;
    - when the call reports a failure (a refused descriptor or chunk, the
      user's refusal, a failed signature, a chunk outside an operation),
      writes a signature message, or is an abort, the session is inactive
      and the key buffer zero. *)
Theorem terminal_transitions_zero_key
    (s : state) (q : request) (Hreach : reach s) :
  (signing s = false -> privkey s = repeat 0 32%nat)
  /\ ((signing (exec (serving q) s) = true
       /\ failures (trace (serving q) s) = []
       /\ exists r,
            sent (trace (serving q) s) = [r]
            /\ req_has_data_length r = true)
      \/ (signing (exec (serving q) s) = false
          /\ privkey (exec (serving q) s) = repeat 0 32%nat))
  /\ (accepted s q -> remaining_after s q = 0 ->
      signing (exec (serving q) s) = false
      /\ privkey (exec (serving q) s) = repeat 0 32%nat)
  /\ (failures (trace (serving q) s) <> [] ->
      signing (exec (serving q) s) = false
      /\ privkey (exec (serving q) s) = repeat 0 32%nat)
  /\ ((exists r, In r (sent (trace (serving q) s))
                 /\ req_has_data_length r = false) ->
      signing (exec (serving q) s) = false
      /\ privkey (exec (serving q) s) = repeat 0 32%nat)
  /\ (q = Abort ->
      signing (exec (serving q) s) = false
      /\ privkey (exec (serving q) s) = repeat 0 32%nat).
Proof.
  pose proof (reachable_idle_key_zero s Hreach) as Hinv.
  pose proof (serve_outcome s q Hinv) as Hout.
  split; [exact Hinv|]. split; [exact Hout|].
  split; [apply complete_payload_ends|].
  split; [|split].
  - intros Hfail. destruct Hout as [(_ & Hnone & _)|Hend];
      [contradiction|exact Hend].
  - intros (r & Hin & Hsig).
    destruct Hout as [(_ & _ & r' & Hsent & Hreq)|Hend]; [|exact Hend].
    rewrite Hsent in Hin. destruct Hin as [<-|[]]. congruence.
  - intros ->. unfold exec. cbn [serve]. apply abort_key. exact Hinv.
Qed.

(** ** The list header of a descriptor, read back *)

(** X8. For a confirmed descriptor whose five fields are sound, whose
    payload, if declared, is at most [0xFFFFFF] bytes and not a single byte
    below [0x80], and whose list content is at most [0xFFFFFF] bytes, the
    list header hashed first reads back as a length that is exactly the
    number of bytes that follow it: those already hashed by
    [ethereum_signing_init] plus the payload bytes still to come. *)
Theorem list_header_announces_content_length
    (s : state) (msg : EthereumSignTx) (node : HDNode)
    (Hacc : accepted s (SignTx msg node true))
    (Hfields : fields_ok msg)
    (Hpayload : has_data_length msg = true ->
                data_length msg <= 0xFFFFFF
                /\ size (data_initial_chunk msg)
                   <= Z.of_nat (length (bytes (data_initial_chunk msg)))
                /\ (data_length msg = 1 ->
                    0x80 <= first_byte (bytes (data_initial_chunk msg))))
    (Hlist : stage1_rlp_length msg <= 0xFFFFFF) :
  exists content,
    rlp_read_list_header (keccak_ctx (exec (init msg node true) s))
    = Some (Z.of_nat (length content)
            + remaining_after s (SignTx msg node true), content).
Proof.
  destruct (init_content_announced s msg node Hacc Hfields Hpayload)
    as (content & Hctx & Hlen).
  exists content. rewrite Hctx, Hlen.
  apply list_header_read; [apply stage1_nonneg|exact Hlist].
Qed.

End SessionProofs.

(** ** The properties on concrete runs *)

Lemma terminal_transitions_zero_key_witness :
  privkey
    (exec (serve sample_keccak_256 sample_ecdsa_sign_digest
             (TxAck (sample_ack [5]))) sample_awaiting)
  = repeat 0 32%nat
  /\ privkey
       (exec (serve sample_keccak_256 sample_ecdsa_sign_digest
                (SignTx sample_tx_plain sample_node false)) sample_awaiting)
     = repeat 0 32%nat.
Proof.
  assert (Hreach : reachable sample_keccak_256 sample_ecdsa_sign_digest
                     sample_awaiting).
  { apply (reachable_serve sample_keccak_256 sample_ecdsa_sign_digest
             boot_state (SignTx (sample_tx_data 2 [9]) sample_node true)).
    apply reachable_boot. }
  split.
  - destruct (terminal_transitions_zero_key
                sample_keccak_256 sample_ecdsa_sign_digest
                sample_awaiting (TxAck (sample_ack [5])) Hreach)
      as (_ & _ & Hdone & _).
    apply Hdone.
    + split; [reflexivity|]. split; [reflexivity|]. split; [reflexivity|].
      split; [discriminate|reflexivity].
    + reflexivity.
  - destruct (terminal_transitions_zero_key
                sample_keccak_256 sample_ecdsa_sign_digest
                sample_awaiting (SignTx sample_tx_plain sample_node false)
                Hreach)
      as (_ & _ & _ & Hfail & _).
    apply Hfail. discriminate.
Defined.

Lemma txack_idle_reports_and_keeps_state_witness :
  ethereum_signing_txack sample_keccak_256 sample_ecdsa_sign_digest
    (sample_ack [5]) boot_state
  = (boot_state,
     [fsm_sendFailure FailureType_Failure_UnexpectedMessage
        "Not in Signing mode";
      layoutHome]).
Proof.
  apply (txack_idle_reports_and_keeps_state
           sample_keccak_256 sample_ecdsa_sign_digest boot_state (sample_ack [5])).
  reflexivity.
Defined.

(** Scenario C of the spec: 5 bytes declared, empty initial chunk. *)
Lemma init_rejects_bad_declared_length_witness :
  trace (ethereum_signing_init sample_keccak_256 sample_ecdsa_sign_digest
           (sample_tx_data 5 []) sample_node true) boot_state
  = [fsm_sendFailure FailureType_Failure_Other
       "Data length provided, but no initial chunk";
     layoutHome].
Proof.
  destruct (init_rejects_bad_declared_length
              sample_keccak_256 sample_ecdsa_sign_digest
              boot_state (sample_tx_data 5 []) sample_node true
              eq_refl (or_intror (or_intror (or_introl eq_refl))))
    as (text & Ht & _ & Htext & _).
  rewrite Ht. rewrite Htext.
  - reflexivity.
  - discriminate.
  - right. reflexivity.
Defined.

(** Scenario B of the spec in small: 2 bytes declared, 1 supplied; one
    request for 1 byte, then the signature after the second byte. *)
Lemma chunk_request_until_signature_witness :
  requests_chunk 1 sample_awaiting
    (trace (serve sample_keccak_256 sample_ecdsa_sign_digest
              (SignTx (sample_tx_data 2 [9]) sample_node true)) boot_state)
  /\ signing
       (exec (serve sample_keccak_256 sample_ecdsa_sign_digest
                (TxAck (sample_ack [5]))) sample_awaiting) = false.
Proof.
  split.
  - apply (chunk_request_until_signature
             sample_keccak_256 sample_ecdsa_sign_digest
             boot_state (SignTx (sample_tx_data 2 [9]) sample_node true)).
    + split; [reflexivity|]. intros _.
      split; [reflexivity|]. split; [reflexivity|].
      split; [discriminate|reflexivity].
    + reflexivity.
  - apply (chunk_request_until_signature
             sample_keccak_256 sample_ecdsa_sign_digest
             sample_awaiting (TxAck (sample_ack [5]))).
    + split; [reflexivity|]. split; [reflexivity|]. split; [reflexivity|].
      split; [discriminate|reflexivity].
    + reflexivity.
    + reflexivity.
Defined.

Lemma initial_chunk_without_length_ignored_witness :
  keccak_ctx
    (exec (ethereum_signing_init sample_keccak_256 sample_ecdsa_sign_digest
             (sample_tx_stray_chunk [9; 9]) sample_node true) boot_state)
  = [0xca; 0x84; 1; 2; 3; 4; 0x80; 0x80; 0x80; 0x80; 0x80].
Proof.
  destruct (initial_chunk_without_length_ignored
              sample_keccak_256 sample_ecdsa_sign_digest
              boot_state (sample_tx_stray_chunk [9; 9]) sample_node
              eq_refl eq_refl) as (_ & Hctx & _).
  rewrite Hctx. reflexivity.
Defined.

Lemma init_while_signing_restarts_witness :
  trace (ethereum_signing_init sample_keccak_256 sample_ecdsa_sign_digest
           sample_tx_plain sample_node true) sample_awaiting
  = trace (ethereum_signing_init sample_keccak_256 sample_ecdsa_sign_digest
             sample_tx_plain sample_node true) boot_state.
Proof.
  destruct (init_while_signing_restarts
              sample_keccak_256 sample_ecdsa_sign_digest
              sample_awaiting sample_tx_plain sample_node true eq_refl)
    as (_ & Ht & _).
  exact Ht.
Defined.

(** C3 on a run. The session is active and waits for a second payload
    byte; a new descriptor arrives and is confirmed. No failure at all is
    reported, the signature of the new transaction is written, and the
    bytes hashed are those of the new descriptor only. A chunk sent to the
    idle device, in contrast, is answered with [UnexpectedMessage]. *)
Lemma init_while_signing_not_rejected :
  signing sample_awaiting = true
  /\ failures
       (trace (ethereum_signing_init sample_keccak_256 sample_ecdsa_sign_digest
                 sample_tx_plain sample_node true) sample_awaiting) = []
  /\ length
       (sent
          (trace (ethereum_signing_init sample_keccak_256
                    sample_ecdsa_sign_digest sample_tx_plain sample_node true)
             sample_awaiting)) = 1%nat
  /\ keccak_ctx
       (exec (ethereum_signing_init sample_keccak_256 sample_ecdsa_sign_digest
                sample_tx_plain sample_node true) sample_awaiting)
     = [0xca; 0x84; 1; 2; 3; 4; 0x80; 0x80; 0x80; 0x80; 0x80]
  /\ failures
       (trace (ethereum_signing_txack sample_keccak_256 sample_ecdsa_sign_digest
                 (sample_ack [5])) boot_state)
     = [(FailureType_Failure_UnexpectedMessage, "Not in Signing mode")].
Proof. vm_compute. repeat split. Qed.

(** C6 on a run. The length [0x1000001] is one above 16 MiB. Its string
    header and its list header carry the three bytes [00 00 01], which read
    back as the length 1, and nothing is reported. A descriptor that declares
    this payload length is confirmed and hashed with such headers, and the
    session goes on to ask for the next chunk. *)
Lemma oversize_length_not_rejected :
  hash_rlp_length 0x1000001 0 boot_state
  = (absorb [0xba; 0x00; 0x00; 0x01] boot_state, [])
  /\ hash_rlp_list_length 0x1000001 boot_state
     = (absorb [0xfa; 0x00; 0x00; 0x01] boot_state, [])
  /\ be_value [0x00; 0x00; 0x01] = 1
  /\ failures
       (trace (ethereum_signing_init sample_keccak_256 sample_ecdsa_sign_digest
                 (sample_tx_data 0x1000001 [9]) sample_node true) boot_state)
     = []
  /\ signing
       (exec (ethereum_signing_init sample_keccak_256 sample_ecdsa_sign_digest
                (sample_tx_data 0x1000001 [9]) sample_node true) boot_state)
     = true
  /\ keccak_ctx
       (exec (ethereum_signing_init sample_keccak_256 sample_ecdsa_sign_digest
                (sample_tx_data 0x1000001 [9]) sample_node true) boot_state)
     = [0xfa; 0x00; 0x00; 0x0e; 0x84; 1; 2; 3; 4; 0x80; 0x80; 0x80; 0x80;
        0xba; 0x00; 0x00; 0x01; 9].
Proof. vm_compute. repeat split. Qed.

(** C2 on a run. The session waits for 1 more payload byte and receives a
    chunk of 2. The chunk is hashed, [data_left] wraps to [2^32 - 1], no
    failure is reported, and the session stays active and asks for another
    1024 bytes. *)
Theorem txack_overrun_wraps_data_left :
  signing sample_awaiting = true
  /\ data_left sample_awaiting = 1
  /\ failures
       (trace (ethereum_signing_txack sample_keccak_256 sample_ecdsa_sign_digest
                 (sample_ack [5; 6])) sample_awaiting) = []
  /\ signing
       (exec (ethereum_signing_txack sample_keccak_256 sample_ecdsa_sign_digest
                (sample_ack [5; 6])) sample_awaiting) = true
  /\ data_left
       (exec (ethereum_signing_txack sample_keccak_256 sample_ecdsa_sign_digest
                (sample_ack [5; 6])) sample_awaiting) = 2 ^ 32 - 1
  /\ map req_data_length
       (sent
          (trace (ethereum_signing_txack sample_keccak_256
                    sample_ecdsa_sign_digest (sample_ack [5; 6]))
             sample_awaiting)) = [1024]
  /\ keccak_ctx
       (exec (ethereum_signing_txack sample_keccak_256 sample_ecdsa_sign_digest
                (sample_ack [5; 6])) sample_awaiting)
     = keccak_ctx sample_awaiting ++ [5; 6].
Proof. vm_compute. repeat split. Qed.

(** ** A remark on the payload field

    The payload does not go through [hash_rlp_field]: stage 2 calls
    [hash_rlp_length] with the declared length and then hashes the initial
    chunk whatever its first byte. For a payload of one byte up to [0x7f],
    stage 1 counts 1 byte (list header [0xca] for 10 bytes of content) and
    stage 2 hashes 2 bytes for it. *)
Example single_byte_payload_counted_once_hashed_twice :
  stage1_rlp_length (sample_tx_data 1 [5]) = 10
  /\ keccak_ctx
       (exec (ethereum_signing_init sample_keccak_256 sample_ecdsa_sign_digest
                (sample_tx_data 1 [5]) sample_node true) boot_state)
     = [0xca; 0x84; 1; 2; 3; 4; 0x80; 0x80; 0x80; 0x80; 0x05; 0x05].
Proof. vm_compute. split; reflexivity. Qed.

(** ** The further properties on concrete runs *)

Lemma txack_empty_chunk_aborts_witness :
  ethereum_signing_txack sample_keccak_256 sample_ecdsa_sign_digest
    sample_empty_ack sample_awaiting
  = (set_signing false (set_privkey (repeat 0 32%nat) sample_awaiting),
     [fsm_sendFailure FailureType_Failure_Other "Empty data chunk received";
      layoutHome]).
Proof.
  apply (txack_empty_chunk_aborts sample_keccak_256 sample_ecdsa_sign_digest
           sample_awaiting sample_empty_ack).
  - reflexivity.
  - reflexivity.
  - left. reflexivity.
Defined.

Lemma init_cancelled_hashes_nothing_witness :
  keccak_ctx
    (exec (ethereum_signing_init sample_keccak_256 sample_ecdsa_sign_digest
             (sample_tx_data 2 [9]) sample_node false) sample_awaiting) = []
  /\ privkey
       (exec (ethereum_signing_init sample_keccak_256 sample_ecdsa_sign_digest
                (sample_tx_data 2 [9]) sample_node false) sample_awaiting)
     = repeat 0 32%nat.
Proof.
  destruct (init_cancelled_hashes_nothing
              sample_keccak_256 sample_ecdsa_sign_digest
              sample_awaiting (sample_tx_data 2 [9]) sample_node)
    as (_ & _ & Hk & Hc & _).
  - intros _. split; [discriminate|]. split; [reflexivity|].
    split; discriminate.
  - split; [exact Hc|exact Hk].
Defined.

Lemma signing_failure_reported_witness :
  failures
    (trace (serve sample_keccak_256 sample_ecdsa_failing
              (TxAck (sample_ack [5]))) sample_awaiting)
  = [(FailureType_Failure_Other, "Signing failed")].
Proof.
  destruct (signing_failure_reported sample_keccak_256 sample_ecdsa_failing
              sample_awaiting (TxAck (sample_ack [5]))) as (Hf & _).
  - split; [reflexivity|]. split; [reflexivity|]. split; [reflexivity|].
    split; [discriminate|reflexivity].
  - reflexivity.
  - discriminate.
  - exact Hf.
Defined.


Lemma sample_two_chunks_ok : Forall chunk_ok sample_two_chunks.
Proof.
  constructor; [|constructor; [|constructor]];
    (split; [reflexivity|]; split; [reflexivity|discriminate]).
Defined.


Lemma sample_tx_three_accepted :
  accepted boot_state (SignTx (sample_tx_data 3 [9]) sample_node true).
Proof.
  split; [reflexivity|]. intros _.
  split; [reflexivity|]. split; [reflexivity|].
  split; [discriminate|reflexivity].
Defined.

Lemma sample_tx_fields_ok (total : Z) (chunk : list Z) :
  fields_ok (sample_tx_data total chunk).
Proof.
  unfold fields_ok, field_ok. cbn.
  repeat split; discriminate.
Defined.

Lemma streamed_transaction_digest_witness :
  keccak_ctx
    (exec (seq (ethereum_signing_init sample_keccak_256
                  sample_ecdsa_sign_digest (sample_tx_data 3 [9])
                  sample_node true)
             (feed_chunks sample_keccak_256 sample_ecdsa_sign_digest
                sample_two_chunks)) boot_state)
  = header_fields_bytes (sample_tx_data 3 [9])
    ++ data_field_bytes (sample_tx_data 3 [9])
    ++ chunks_payload sample_two_chunks
  /\ signature_v
       (resp
          (exec (seq (ethereum_signing_init sample_keccak_256
                        sample_ecdsa_sign_digest (sample_tx_data 3 [9])
                        sample_node true)
                   (feed_chunks sample_keccak_256 sample_ecdsa_sign_digest
                      sample_two_chunks)) boot_state)) = 28.
Proof.
  destruct (streamed_transaction_digest
              sample_keccak_256 sample_ecdsa_sign_digest
              boot_state (sample_tx_data 3 [9]) sample_node sample_two_chunks
              sample_tx_three_accepted sample_two_chunks_ok eq_refl)
    as (Hctx & _ & _ & _ & Hsig).
  destruct (Hsig eq_refl) as (_ & Hv & _).
  split; [exact Hctx|exact Hv].
Defined.

Lemma list_header_announces_content_length_witness :
  exists content,
    rlp_read_list_header
      (keccak_ctx
         (exec (ethereum_signing_init sample_keccak_256
                  sample_ecdsa_sign_digest (sample_tx_data 3 [9])
                  sample_node true) boot_state))
    = Some (Z.of_nat (length content)
            + remaining_after boot_state
                (SignTx (sample_tx_data 3 [9]) sample_node true), content).
Proof.
  apply (list_header_announces_content_length
           sample_keccak_256 sample_ecdsa_sign_digest
           boot_state (sample_tx_data 3 [9]) sample_node
           sample_tx_three_accepted (sample_tx_fields_ok 3 [9])).
  - intros _. split; [discriminate|]. split; [discriminate|].
    intros H. discriminate H.
  - discriminate.
Defined.

Lemma single_small_byte_payload_one_byte_too_many_witness :
  exists content,
    keccak_ctx
      (exec (ethereum_signing_init sample_keccak_256 sample_ecdsa_sign_digest
               (sample_tx_data 1 [5]) sample_node true) boot_state)
    = list_header (stage1_rlp_length (sample_tx_data 1 [5])) ++ content
    /\ Z.of_nat (length content)
       = stage1_rlp_length (sample_tx_data 1 [5]) + 1.
Proof.
  destruct (single_small_byte_payload_one_byte_too_many
              sample_keccak_256 sample_ecdsa_sign_digest
              boot_state (sample_tx_data 1 [5]) sample_node) as [_ H].
  - split; [reflexivity|]. intros _.
    split; [reflexivity|]. split; [reflexivity|].
    split; [discriminate|reflexivity].
  - apply sample_tx_fields_ok.
  - reflexivity.
  - reflexivity.
  - discriminate.
  - discriminate.
  - exact H.
Defined.

Lemma list_header_reads_back_witness :
  exists header,
    hash_rlp_list_length 1000 boot_state = (absorb header boot_state, [])
    /\ rlp_read_list_header (header ++ [0x80]) = Some (1000, [0x80]).
Proof.
  apply (list_header_reads_back boot_state 1000 [0x80]); discriminate.
Defined.

Lemma field_encoding_reads_back_witness :
  exists encoding,
    hash_rlp_field [0x81; 2; 3; 4] 1 boot_state
    = (absorb encoding boot_state, [])
    /\ rlp_read_string (encoding ++ [0x80]) = Some ([0x81], [0x80]).
Proof.
  apply (field_encoding_reads_back boot_state [0x81; 2; 3; 4] 1 [0x80]);
    discriminate.
Defined.

Lemma absent_empty_and_zero_byte_hash_alike_witness :
  hash_optional_field true (mk_bytes 1 [0; 7; 7]) boot_state
  = (absorb [0x80] boot_state, [])
  /\ hash_optional_field true (mk_bytes 0 [9; 7; 7]) boot_state
     = (absorb [0x80] boot_state, [])
  /\ hash_optional_field false (mk_bytes 3 [9; 7; 7]) boot_state
     = (absorb [0x80] boot_state, []).
Proof.
  split; [|split].
  - apply (absent_empty_and_zero_byte_hash_alike
             boot_state true (mk_bytes 1 [0; 7; 7])).
    right. right. split; reflexivity.
  - apply (absent_empty_and_zero_byte_hash_alike
             boot_state true (mk_bytes 0 [9; 7; 7])).
    right. left. reflexivity.
  - apply (absent_empty_and_zero_byte_hash_alike
             boot_state false (mk_bytes 3 [9; 7; 7])).
    left. reflexivity.
Defined.

Lemma chunk_progress_within_bounds_witness :
  200 <= 1000 - 800 * data_left sample_awaiting / data_total sample_awaiting
      <= 1000.
Proof.
  destruct (chunk_progress_within_bounds sample_awaiting) as (_ & H & _).
  - reflexivity.
  - discriminate.
  - reflexivity.
  - exact H.
Defined.

Lemma sample_awaiting_reachable :
  reachable sample_keccak_256 sample_ecdsa_sign_digest sample_awaiting.
Proof.
  apply (reachable_serve sample_keccak_256 sample_ecdsa_sign_digest
           boot_state (SignTx (sample_tx_data 2 [9]) sample_node true)).
  apply reachable_boot.
Defined.

Lemma messages_are_requests_or_signatures_witness :
  chunk_request_shape (resp sample_awaiting)
  \/ signature_shape (resp sample_awaiting).
Proof.
  apply (messages_are_requests_or_signatures
           sample_keccak_256 sample_ecdsa_sign_digest
           boot_state (SignTx (sample_tx_data 2 [9]) sample_node true)
           (resp sample_awaiting)).
  - apply reachable_boot.
  - left. reflexivity.
Defined.

Lemma active_session_total_nonzero_witness : data_total sample_awaiting <> 0.
Proof.
  apply (active_session_total_nonzero
           sample_keccak_256 sample_ecdsa_sign_digest sample_awaiting).
  - exact sample_awaiting_reachable.
  - reflexivity.
Defined.

Lemma signed_bytes_read_back_as_transaction_witness :
  rlp_read_list 6
    (keccak_ctx
       (exec (seq (ethereum_signing_init sample_keccak_256
                     sample_ecdsa_sign_digest (sample_tx_data 3 [9])
                     sample_node true)
                (feed_chunks sample_keccak_256 sample_ecdsa_sign_digest
                   sample_two_chunks)) boot_state))
  = Some [[1; 2; 3; 4]; []; []; []; []; [9; 5; 6]].
Proof.
  apply (signed_bytes_read_back_as_transaction
           sample_keccak_256 sample_ecdsa_sign_digest
           boot_state (sample_tx_data 3 [9]) sample_node sample_two_chunks
           sample_tx_three_accepted (sample_tx_fields_ok 3 [9])).
  - unfold first_bytes_ok. cbn. repeat split; discriminate.
  - intros _. split; [discriminate|]. split; [discriminate|].
    intros H. discriminate H.
  - discriminate.
  - exact sample_two_chunks_ok.
  - reflexivity.
Defined.

Lemma txack_overrun_run_witness :
  data_left
    (exec (ethereum_signing_txack sample_keccak_256 sample_ecdsa_sign_digest
             (sample_ack [5; 6])) sample_awaiting)
  = data_left sample_awaiting - 2 + 2 ^ 32
  /\ keccak_ctx
       (exec (ethereum_signing_txack sample_keccak_256 sample_ecdsa_sign_digest
                (sample_ack [5; 6])) sample_awaiting)
     = keccak_ctx sample_awaiting ++ [5; 6].
Proof.
  destruct (txack_overrun_run sample_keccak_256 sample_ecdsa_sign_digest
              (sample_ack [5; 6]) sample_awaiting) as (_ & H & _ & _ & Hc & _).
  - reflexivity.
  - reflexivity.
  - discriminate.
  - reflexivity.
  - reflexivity.
  - split; [exact H|exact Hc].
Defined.
